(** * Forward-shooting solver for assortative matching (solvers.py)

    A shallow embedding of [ShootingSolver]: the boundary classifier,
    the numeric evaluators with their assertions, the two reset methods,
    the two shooting drivers and [solve].

    The control flow is studied with Python floats idealised as exact
    rationals ([Q]).  What depends on the arithmetic itself (the bisection
    bracket, the positivity assertions) is studied on a second rendering
    of the loop bodies whose number type is a parameter, run on binary64.
    The scipy integrator is an external collaborator: its observable state
    ([t], [y], the success flag) is a record and its stepping function is
    a section variable. *)

From Stdlib Require Import QArith Qabs ZArith String List Bool Lia Lqa.
From Stdlib Require Import Floats.
Import ListNotations.
Local Open Scope Q_scope.

(** ** Comparisons on floats, as booleans *)

(** Python [a <= b]. *)
Definition Qleb (a b : Q) : bool := Qle_bool a b.

(** Python [a < b]. *)
Definition Qltb (a b : Q) : bool := negb (Qle_bool b a).

(** ** Data model *)

(** The dependent variables [V = [mu, theta]]: the drivers build it as
    [np.array([y_upper, firm_size])] and unpack it as [mu, theta = V]. *)
Definition Vec : Type := (Q * Q)%type.

(** [V[0]] *)
Definition V0 (V : Vec) : Q := fst V.
(** [V[1]] *)
Definition V1 (V : Vec) : Q := snd V.

(** Observable state of [scipy.integrate.ode]. *)
Module Ode.
Record ode : Type := mk
  { t : Q;            (* independent variable *)
    y : Vec;          (* current state vector *)
    success : bool;   (* what [successful()] returns *)
    method : string   (* the stepper chosen by [set_integrator] *) }.
End Ode.

(** [ode.set_initial_value(y, t)]: stores the state and resets the
    stepper, after which [successful()] holds again. *)
Definition set_initial_value (o : Ode.ode) (V : Vec) (x : Q) : Ode.ode :=
  Ode.mk x V true (Ode.method o).

(** [ode.set_integrator(name, **kwargs)]: installs a fresh stepper, which
    starts out successful.  The stepper's options are opaque and live in
    the stepping function. *)
Definition set_integrator (o : Ode.ode) (name : string) : Ode.ode :=
  Ode.mk (Ode.t o) (Ode.y o) true name.

(** [ode.successful()] *)
Definition successful (o : Ode.ode) : bool := Ode.success o.

(** The part of [models.Model] the solver reads.  The lambdified wage and
    profit functions have the model's parameter values folded in. *)
Record Model : Type :=
  { assortativity : string;
    workers_lower : Q;
    workers_upper : Q;
    firms_lower : Q;
    firms_upper : Q;
    numeric_wage : Q -> Vec -> Q;
    numeric_profit : Q -> Vec -> Q }.

(** One row [(x, mu, theta, wage, profit)] of the solution array. *)
Record Row : Type := mkRow
  { row_x : Q; row_mu : Q; row_theta : Q; row_wage : Q; row_profit : Q }.

(** [np.hstack((x, V, wage, profit))] *)
Definition hstack (x : Q) (V : Vec) (wage profit : Q) : Row :=
  mkRow x (V0 V) (V1 V) wage profit.

(** A printed line: the message template and the value substituted for
    its [{}] placeholder, when it has one. *)
Record line : Type := Line { text : string; arg : option Q }.

(** What a solver instance owns, together with the program's output. *)
Record State : Type := mkState
  { integrator : Ode.ode;
    solution : list Row;
    stdout : list line }.

Inductive exn : Type :=
| AssertionError (mesg : string)
| ZeroDivisionError.

(** Values a Python call can hand back to its caller. *)
Inductive pyobject : Type :=
| PyNone
| PyArray (rows : list Row)
| PyFailure (mesg : string).

(** ** A state and exception monad with a fuel outcome *)

Inductive outcome (A : Type) : Type :=
| Normal (a : A) (s : State)
| Raised (e : exn) (s : State)
| OutOfFuel (s : State).
Arguments Normal {A} a s.
Arguments Raised {A} e s.
Arguments OutOfFuel {A} s.

Definition M (A : Type) : Type := State -> outcome A.

Definition ret {A} (a : A) : M A := fun s => Normal a s.

Definition bind {A B} (c : M A) (k : A -> M B) : M B :=
  fun s =>
    match c s with
    | Normal a s' => k a s'
    | Raised e s' => Raised e s'
    | OutOfFuel s' => OutOfFuel s'
    end.

Definition raise {A} (e : exn) : M A := fun s => Raised e s.

Definition get : M State := fun s => Normal s s.

Notation "x <- c ;; k" := (bind c (fun x => k))
  (at level 61, c at next level, right associativity).
Notation "c ;; k" := (bind c (fun _ => k))
  (at level 61, right associativity).

(** [assert cond, mesg] *)
Definition assert (cond : bool) (mesg : string) : M unit :=
  if cond then ret tt else raise (AssertionError mesg).

(** [print(mesg)] and [print(mesg.format(v))] *)
Definition print (mesg : string) : M unit :=
  fun s => Normal tt (mkState (integrator s) (solution s)
                              (stdout s ++ [Line mesg None])).

Definition print_format (mesg : string) (v : Q) : M unit :=
  fun s => Normal tt (mkState (integrator s) (solution s)
                              (stdout s ++ [Line mesg (Some v)])).

(** [self.solution = value] *)
Definition set_solution (rows : list Row) : M unit :=
  fun s => Normal tt (mkState (integrator s) rows (stdout s)).

(** An in-place update of the integrator object. *)
Definition update_integrator (f : Ode.ode -> Ode.ode) : M unit :=
  fun s => Normal tt (mkState (f (integrator s)) (solution s) (stdout s)).

(** ** Boundary and convergence classifier *)

Definition _almost_zero_profit (profit tol : Q) : bool := Qleb profit tol.

Definition _almost_zero_wage (wage tol : Q) : bool := Qleb wage tol.

Definition _converged_firms (s : State) (bound tol : Q) : bool :=
  if Qleb (Qabs (V0 (Ode.y (integrator s)) - bound)) tol
  then true else false.

Definition _converged_workers (s : State) (bound tol : Q) : bool :=
  if Qleb (Qabs (Ode.t (integrator s) - bound)) tol
  then true else false.

Definition _exhausted_firms (s : State) (bound tol : Q) : bool :=
  if Qltb (V0 (Ode.y (integrator s)) - bound) (- tol)
  then true else false.

Definition _exhausted_workers (m : Model) (s : State) (bound tol : Q) : bool :=
  if String.eqb (assortativity m) "positive"
  then (if Qltb (Ode.t (integrator s) - bound) (- tol) then true else false)
  else (if Qltb tol (Ode.t (integrator s) - bound) then true else false).

Definition _guess_firm_size_upper_too_low (s : State) (bound tol : Q) : bool :=
  Qleb (Qabs (V1 (Ode.y (integrator s)) - bound)) tol.

(** The two components of the integrator state, named as the drivers
    unpack them ([mu, theta = V]). *)
Definition mu_of (s : State) : Q := V0 (Ode.y (integrator s)).
Definition theta_of (s : State) : Q := V1 (Ode.y (integrator s)).

(** ** Numeric evaluators *)

Definition evaluate_profit (m : Model) (x : Q) (V : Vec) : M Q :=
  let profit := numeric_profit m x V in
  assert (Qltb 0 profit) "Profit should be non-negative!" ;;
  ret profit.

Definition evaluate_wage (m : Model) (x : Q) (V : Vec) : M Q :=
  let wage := numeric_wage m x V in
  assert (Qltb 0 wage) "Wage should be non-negative!" ;;
  ret wage.

(** Python float division [a / b], the workers' bounds being Python
    floats: a zero divisor raises. *)
Definition divide (a b : Q) : M Q :=
  if Qeq_bool b 0 then raise ZeroDivisionError else ret (a / b).

(** [self.solution = np.vstack((self.solution, step))] *)
Definition vstack_solution (step : Row) : M unit :=
  fun s => Normal tt (mkState (integrator s) (solution s ++ [step]) (stdout s)).

(** ** The shooting drivers *)

(** The three local variables the bisection updates. *)
Record Bracket : Type := mkBracket
  { firm_size_lower : Q;
    firm_size_upper : Q;
    guess_firm_size : Q }.

(** How one pass through a loop body ends: [break], or the next loop test
    with the locals as they now are. *)
Inductive control : Type :=
| Break
| Continue (b : Bracket).

(** [while self.integrator.successful(): body] *)
Fixpoint while_successful (body : Bracket -> M control) (fuel : nat)
    (b : Bracket) : M unit :=
  fun s =>
    match fuel with
    | O => OutOfFuel s
    | S fuel' =>
        if successful (integrator s) then
          match body b s with
          | Normal Break s' => Normal tt s'
          | Normal (Continue b') s' => while_successful body fuel' b' s'
          | Raised e s' => Raised e s'
          | OutOfFuel s' => OutOfFuel s'
          end
        else Normal tt s
    end.

Definition failure_mesg : string :=
  "Failure! Need to increase initial guess for upper bound on firm size!".

Section Solver.

Variable model : Model.

(** [ode.integrate(t)]: advance the integrator to [t]; the result holds
    the new [t], [y] and success flag. *)
Variable integrate : Ode.ode -> Q -> Ode.ode.

Definition _reset_negative_assortative_solution (firm_size : Q) : M unit :=
  let x_lower := workers_lower model in
  let y_upper := firms_upper model in
  let initial_V := (y_upper, firm_size) in
  update_integrator (fun o => set_initial_value o initial_V x_lower) ;;
  wage <- evaluate_wage model x_lower initial_V ;;
  profit <- evaluate_profit model x_lower initial_V ;;
  set_solution [hstack x_lower initial_V wage profit].

Definition _reset_positive_assortative_solution (firm_size : Q) : M unit :=
  let x_upper := workers_upper model in
  let y_upper := firms_upper model in
  let initial_V := (y_upper, firm_size) in
  update_integrator (fun o => set_initial_value o initial_V x_upper) ;;
  wage <- evaluate_wage model x_upper initial_V ;;
  profit <- evaluate_profit model x_upper initial_V ;;
  set_solution [hstack x_upper initial_V wage profit].

(** The block repeated in every "guess is too high" branch:
    [[
      print(mesg.format(guess_firm_size))
      firm_size_upper = guess_firm_size
      guess_firm_size = 0.5 * (firm_size_upper + firm_size_lower)
      self._reset_..._solution(guess_firm_size)
    ]] *)
Definition too_high (reset : Q -> M unit) (mesg : string) (b : Bracket)
  : M control :=
  print_format mesg (guess_firm_size b) ;;
  let firm_size_upper' := guess_firm_size b in
  let guess_firm_size' := (1 # 2) * (firm_size_upper' + firm_size_lower b) in
  reset guess_firm_size' ;;
  ret (Continue (mkBracket (firm_size_lower b) firm_size_upper'
                           guess_firm_size')).

(** The block repeated in every "guess is too low" branch:
    [[
      print(mesg.format(guess_firm_size))
      firm_size_lower = guess_firm_size
      guess_firm_size = 0.5 * (firm_size_upper + firm_size_lower)
      self._reset_..._solution(guess_firm_size)
    ]] *)
Definition too_low (reset : Q -> M unit) (mesg : string) (b : Bracket)
  : M control :=
  print_format mesg (guess_firm_size b) ;;
  let firm_size_lower' := guess_firm_size b in
  let guess_firm_size' := (1 # 2) * (firm_size_upper b + firm_size_lower') in
  reset guess_firm_size' ;;
  ret (Continue (mkBracket firm_size_lower' (firm_size_upper b)
                           guess_firm_size')).

(** The lines shared by both loop bodies between the ceiling test and
    the classification: one integration step to [target], the firm-size
    assertion, and the new row appended to the solution.  Returns the
    wage and profit of the new row. *)
Definition advance (target : Ode.ode -> Q) : M (Q * Q) :=
  update_integrator (fun o => integrate o (target o)) ;;
  s <- get ;;
  let x := Ode.t (integrator s) in
  let V := Ode.y (integrator s) in
  let mu := V0 V in
  let theta := V1 V in
  assert (Qltb 0 theta) "Firm size should be non-negative!" ;;
  wage <- evaluate_wage model x V ;;
  profit <- evaluate_profit model x V ;;
  let step := hstack x V wage profit in
  vstack_solution step ;;
  ret (wage, profit).

(** The [if]/[elif] chain of the negative assortative loop body. *)
Definition classify_negative (tol : Q) (wage profit : Q) (b : Bracket)
  : M control :=
  let x_upper := workers_upper model in
  let y_lower := firms_lower model in
  let reset := _reset_negative_assortative_solution in
  s <- get ;;
  if _exhausted_workers model s x_upper tol then
    too_high reset
      "Initial guess of {} for firm size is too high! (run out of workers) " b
  else if _exhausted_firms s y_lower tol then
    too_low reset
      "Initial guess of {} for firm size is too low!(run out of firms)" b
  else if _converged_workers s x_upper tol then
    if _converged_firms s y_lower tol then
      print "Success! Found equilibrium where all workers and firms are matched" ;;
      ret Break
    else if negb (_exhausted_firms s y_lower tol)
            && _almost_zero_profit profit tol then
      print "Success! Found equilibrium with excess firms." ;;
      ret Break
    else if negb (_exhausted_firms s y_lower tol)
            && negb (_almost_zero_profit profit tol) then
      too_high reset
        "Firms about and positive profits to be had: initial guess of {} for firm size is too high!" b
    else
      too_low reset
        "Exhausted all firms: initial guess of {} for firm size is too low!" b
  else if _converged_firms s y_lower tol then
    if _converged_workers s x_upper tol then
      (* [assert "This case should ..."]: a non-empty string is true *)
      ret (Continue b)
    else if negb (_exhausted_workers model s x_upper tol)
            && _almost_zero_wage wage tol then
      print "Success! Found equilibrium with excess workers." ;;
      ret Break
    else if negb (_exhausted_workers model s x_upper tol)
            && negb (_almost_zero_wage wage tol) then
      too_low reset
        "Workers still unmatched but wages are not zero: initial guess of {} for firm size is too low." b
    else
      too_high reset
        "Exhausted all workers: initial guess of {} for firm size is too high!" b
  else
    ret (Continue b).

(** The [if]/[elif] chain of the positive assortative loop body. *)
Definition classify_positive (tol : Q) (b : Bracket) : M control :=
  let x_lower := workers_lower model in
  let y_lower := firms_lower model in
  let reset := _reset_positive_assortative_solution in
  s <- get ;;
  if _converged_workers s x_lower tol && _converged_firms s y_lower tol then
    print "Success! All workers and firms are matched" ;;
    ret Break
  else if negb (_converged_workers s x_lower tol)
          && _exhausted_firms s y_lower tol then
    too_low reset
      "Exhausted firms: initial guess of {} for firm size is too low." b
  else if _converged_workers s x_lower tol
          && _exhausted_firms s y_lower tol then
    too_low reset
      "Exhausted firms: Initial guess of {} for firm size was too low!" b
  else if _converged_workers s x_lower tol
          && negb (_exhausted_firms s y_lower tol) then
    too_high reset
      "Exhausted workers: initial guess of {} for firm size is too high!" b
  else
    ret (Continue b).

(** The ceiling test that opens both loop bodies. *)
Definition ceiling_reached (guess_firm_size_upper tol : Q) : M bool :=
  s <- get ;;
  if _guess_firm_size_upper_too_low s guess_firm_size_upper tol then
    print failure_mesg ;;
    ret true
  else ret false.

(** Body of the loop of [_solve_negative_assortative_matching]. *)
Definition negative_body (guess_firm_size_upper tol step_size : Q)
    (b : Bracket) : M control :=
  stop <- ceiling_reached guess_firm_size_upper tol ;;
  if stop : bool then ret Break
  else
    wp <- advance (fun o => Ode.t o + step_size) ;;
    classify_negative tol (fst wp) (snd wp) b.

(** Body of the loop of [_solve_positive_assortative_matching]. *)
Definition positive_body (guess_firm_size_upper tol step_size : Q)
    (b : Bracket) : M control :=
  stop <- ceiling_reached guess_firm_size_upper tol ;;
  if stop : bool then ret Break
  else
    wp <- advance (fun o => Ode.t o - step_size) ;;
    classify_positive tol b.

(** The bracket both drivers start from. *)
Definition initial_bracket (guess_firm_size_upper : Q) : Bracket :=
  let firm_size_lower := 0 in
  let firm_size_upper := guess_firm_size_upper in
  let guess_firm_size := (1 # 2) * (firm_size_upper + firm_size_lower) in
  mkBracket firm_size_lower firm_size_upper guess_firm_size.

(** Neither driver has a [return] statement: a call that completes
    hands back [None]. *)
Definition _solve_negative_assortative_matching
    (guess_firm_size_upper tol : Q) (number_knots : Z)
    (integrator_name : string) (fuel : nat) : M pyobject :=
  let x_lower := workers_lower model in
  let x_upper := workers_upper model in
  update_integrator (fun o => set_integrator o integrator_name) ;;
  let b := initial_bracket guess_firm_size_upper in
  _reset_negative_assortative_solution (guess_firm_size b) ;;
  step_size <- divide (x_upper - x_lower) (inject_Z (number_knots - 1)) ;;
  while_successful (negative_body guess_firm_size_upper tol step_size)
                   fuel b ;;
  ret PyNone.

Definition _solve_positive_assortative_matching
    (guess_firm_size_upper tol : Q) (number_knots : Z)
    (integrator_name : string) (fuel : nat) : M pyobject :=
  let x_lower := workers_lower model in
  let x_upper := workers_upper model in
  update_integrator (fun o => set_integrator o integrator_name) ;;
  let b := initial_bracket guess_firm_size_upper in
  _reset_positive_assortative_solution (guess_firm_size b) ;;
  step_size <- divide (x_upper - x_lower) (inject_Z (number_knots - 1)) ;;
  while_successful (positive_body guess_firm_size_upper tol step_size)
                   fuel b ;;
  ret PyNone.

(** [solve] discards what the driver hands back and has no [return]
    statement of its own. *)
Definition solve (guess_firm_size_upper tol : Q) (number_knots : Z)
    (integrator_name : string) (fuel : nat) : M pyobject :=
  if String.eqb (assortativity model) "positive" then
    _solve_positive_assortative_matching guess_firm_size_upper tol
      number_knots integrator_name fuel ;;
    ret PyNone
  else
    _solve_negative_assortative_matching guess_firm_size_upper tol
      number_knots integrator_name fuel ;;
    ret PyNone.

End Solver.

(** ** A uniform view of the two drivers

    The two drivers differ in the reset method, the boundary they start
    from, the direction of a step and the classification.  The selectors
    below let a property be stated once for both. *)

Inductive variant : Type := Negative | Positive.

Definition reset_of (m : Model) (v : variant) : Q -> M unit :=
  match v with
  | Negative => _reset_negative_assortative_solution m
  | Positive => _reset_positive_assortative_solution m
  end.

(** Where a trial starts: [workers.lower] or [workers.upper]. *)
Definition start_of (m : Model) (v : variant) : Q :=
  match v with
  | Negative => workers_lower m
  | Positive => workers_upper m
  end.

Definition body_of (m : Model) (integrate : Ode.ode -> Q -> Ode.ode)
    (v : variant) : Q -> Q -> Q -> Bracket -> M control :=
  match v with
  | Negative => negative_body m integrate
  | Positive => positive_body m integrate
  end.

Definition driver_of (m : Model) (integrate : Ode.ode -> Q -> Ode.ode)
    (v : variant) : Q -> Q -> Z -> string -> nat -> M pyobject :=
  match v with
  | Negative => _solve_negative_assortative_matching m integrate
  | Positive => _solve_positive_assortative_matching m integrate
  end.

(** The target of one step: up from [t] or down from [t]. *)
Definition target_of (v : variant) (step_size : Q) (o : Ode.ode) : Q :=
  match v with
  | Negative => Ode.t o + step_size
  | Positive => Ode.t o - step_size
  end.

(** The driver [solve] selects. *)
Definition variant_of (m : Model) : variant :=
  if String.eqb (assortativity m) "positive" then Positive else Negative.

(** The initial state vector and the single row a reset with firm size
    [g] installs when its two assertions pass. *)
Definition initial_V (m : Model) (g : Q) : Vec := (firms_upper m, g).

Definition reset_row (m : Model) (v : variant) (g : Q) : Row :=
  let x0 := start_of m v in
  mkRow x0 (firms_upper m) g
        (numeric_wage m x0 (initial_V m g))
        (numeric_profit m x0 (initial_V m g)).

(** The state a completed reset leaves behind. *)
Definition reset_state (m : Model) (v : variant) (g : Q) (s : State) : State :=
  mkState (Ode.mk (start_of m v) (initial_V m g) true
                  (Ode.method (integrator s)))
          [reset_row m v g] (stdout s).

(** Row 0 of the solution is the reset row of the current guess. *)
Definition row0_is_reset (m : Model) (v : variant) (b : Bracket) (s : State)
  : Prop :=
  exists rest, solution s = reset_row m v (guess_firm_size b) :: rest.

(** The bracket after a "too high" and after a "too low" update. *)
Definition narrowed_above (b : Bracket) : Bracket :=
  mkBracket (firm_size_lower b) (guess_firm_size b)
            ((1 # 2) * (guess_firm_size b + firm_size_lower b)).

Definition narrowed_below (b : Bracket) : Bracket :=
  mkBracket (guess_firm_size b) (firm_size_upper b)
            ((1 # 2) * (firm_size_upper b + guess_firm_size b)).

(** The state with one more printed line. *)
Definition with_line (s : State) (l : line) : State :=
  mkState (integrator s) (solution s) (stdout s ++ [l]).

(** The four ways a classification that completes can end, with the state
    it leaves: a [break] after a message, the next loop test with nothing
    changed, or a retry with the bracket narrowed from above or below. *)
Inductive classified (m : Model) (v : variant) (b : Bracket) (s : State)
  : control -> State -> Prop :=
| classified_break (mesg : string) :
    classified m v b s Break (with_line s (Line mesg None))
| classified_continue :
    classified m v b s (Continue b) s
| classified_too_high (mesg : string) :
    classified m v b s (Continue (narrowed_above b))
      (reset_state m v (guess_firm_size (narrowed_above b))
         (with_line s (Line mesg (Some (guess_firm_size b)))))
| classified_too_low (mesg : string) :
    classified m v b s (Continue (narrowed_below b))
      (reset_state m v (guess_firm_size (narrowed_below b))
         (with_line s (Line mesg (Some (guess_firm_size b))))).

(** The locals a pass through the loop body leaves in force. *)
Definition bracket_after (b : Bracket) (c : control) : Bracket :=
  match c with
  | Break => b
  | Continue b' => b'
  end.

(** The locals and states at which the loop of a driver is tested: the
    initial bracket with the state its reset leaves, and whatever a
    completed pass hands to the next loop test. *)
Inductive loop_state (m : Model) (integrate : Ode.ode -> Q -> Ode.ode)
    (v : variant) (ceiling tol step_size : Q) : Bracket -> State -> Prop :=
| loop_enter (s0 : State) :
    loop_state m integrate v ceiling tol step_size
      (initial_bracket ceiling)
      (reset_state m v (guess_firm_size (initial_bracket ceiling)) s0)
| loop_next (b b' : Bracket) (s s' : State) :
    loop_state m integrate v ceiling tol step_size b s ->
    successful (integrator s) = true ->
    body_of m integrate v ceiling tol step_size b s = Normal (Continue b') s' ->
    loop_state m integrate v ceiling tol step_size b' s'.

(** The state an outcome carries. *)
Definition final_state {A} (o : outcome A) : State :=
  match o with
  | Normal _ s => s
  | Raised _ s => s
  | OutOfFuel s => s
  end.

(** A pass abandons a failed step at once when, the step it takes having
    reported failure, it ends with the rows and the bracket it began
    with. *)
Definition abandons_failed_step (m : Model)
    (integrate : Ode.ode -> Q -> Ode.ode) (v : variant)
    (ceiling tol step_size : Q) (b : Bracket) (s : State) : Prop :=
  successful (integrator s) = true ->
  _guess_firm_size_upper_too_low s ceiling tol = false ->
  successful (integrate (integrator s) (target_of v step_size (integrator s)))
  = false ->
  forall c s',
    body_of m integrate v ceiling tol step_size b s = Normal c s' ->
    solution s' = solution s /\ bracket_after b c = b.

Definition is_table_or_failure (v : pyobject) : Prop :=
  match v with
  | PyNone => False
  | PyArray _ => True
  | PyFailure _ => True
  end.

(** ** Concrete instances used to run the definitions *)

(** A solver state with the given integrator position and an empty
    solution and output. *)
Definition state_at (x mu theta : Q) (ok : bool) : State :=
  mkState (Ode.mk x (mu, theta) ok "dopri5") [] [].

(** Workers and firms on [0, 1], wage and profit constantly 1. *)
Definition toy_model (a : string) : Model :=
  Build_Model a 0 1 0 1 (fun _ _ => 1) (fun _ _ => 1).

(** The trajectory of [dmu/dx = -1, dtheta/dx = 0], stepped exactly. *)
Definition linear_integrate (o : Ode.ode) (target : Q) : Ode.ode :=
  Ode.mk target (V0 (Ode.y o) - (target - Ode.t o), V1 (Ode.y o)) true
         (Ode.method o).

(** A stepper that moves [t] and leaves [y] alone. *)
Definition constant_integrate (o : Ode.ode) (target : Q) : Ode.ode :=
  Ode.mk target (Ode.y o) true (Ode.method o).

(** A stepper whose every step reports failure. *)
Definition failing_integrate (o : Ode.ode) (target : Q) : Ode.ode :=
  Ode.mk target (Ode.y o) false (Ode.method o).

(** A stepper under which the firm size drifts up by one per step. *)
Definition drifting_integrate (o : Ode.ode) (target : Q) : Ode.ode :=
  Ode.mk target (V0 (Ode.y o), V1 (Ode.y o) + 1) true (Ode.method o).

(** The toy model with a wage that is constantly zero. *)
Definition unpaid_model : Model :=
  Build_Model "negative" 0 1 0 1 (fun _ _ => 0) (fun _ _ => 1).

(** A solver before its first solve. *)
Definition fresh : State := mkState (Ode.mk 0 (0, 0) true "") [] [].

(** ** Further notions used to state properties of the drivers *)

(** The negative assortative classification as a flat decision table:
    the branches of [classify_negative] that can be taken, in order. *)
Definition classify_negative_table (m : Model) (tol wage profit : Q)
    (b : Bracket) : M control :=
  let x_upper := workers_upper m in
  let y_lower := firms_lower m in
  let reset := _reset_negative_assortative_solution m in
  s <- get ;;
  if _exhausted_workers m s x_upper tol then
    too_high reset
      "Initial guess of {} for firm size is too high! (run out of workers) " b
  else if _exhausted_firms s y_lower tol then
    too_low reset
      "Initial guess of {} for firm size is too low!(run out of firms)" b
  else if _converged_workers s x_upper tol then
    if _converged_firms s y_lower tol then
      print "Success! Found equilibrium where all workers and firms are matched" ;;
      ret Break
    else if _almost_zero_profit profit tol then
      print "Success! Found equilibrium with excess firms." ;;
      ret Break
    else
      too_high reset
        "Firms about and positive profits to be had: initial guess of {} for firm size is too high!" b
  else if _converged_firms s y_lower tol then
    if _almost_zero_wage wage tol then
      print "Success! Found equilibrium with excess workers." ;;
      ret Break
    else
      too_low reset
        "Workers still unmatched but wages are not zero: initial guess of {} for firm size is too low." b
  else
    ret (Continue b).

(** The messages of the two final [else] branches of the negative
    assortative classification. *)
Definition exhausted_all_firms_mesg : string :=
  "Exhausted all firms: initial guess of {} for firm size is too low!".

Definition exhausted_all_workers_mesg : string :=
  "Exhausted all workers: initial guess of {} for firm size is too high!".

(** A line that reports how a solve ended: the ceiling failure or one of
    the success messages. *)
Definition is_verdict (l : line) : Prop :=
  arg l = None
  /\ (text l = failure_mesg \/ String.prefix "Success!" (text l) = true).



(** A row whose firm size, wage and profit are all positive. *)
Definition positive_row (r : Row) : Prop :=
  0 < row_theta r /\ 0 < row_wage r /\ 0 < row_profit r.

(** ** The solver object: model attribute and cached evaluators *)

(** A 2 x 2 matrix, by rows. *)
Definition Mat : Type := (Vec * Vec)%type.

(** What can be assigned to the [model] attribute: an instance of
    [models.Model], or an object of some other class. *)
Inductive pyarg : Type :=
| ModelInstance (m : Model)
| OtherInstance (class_name : string).

(** The attributes of a [ShootingSolver] instance.  A cache attribute is
    [None] or holds what its getter built. *)
Record ShootingSolver : Type := mkSolver
  { _model : Model;
    __numeric_jacobian : option (Q -> Vec -> Mat);
    __numeric_profit : option (Q -> Vec -> Q);
    __numeric_system : option (Q -> Vec -> Vec);
    __numeric_wage : option (Q -> Vec -> Q);
    __integrator : option Ode.ode }.

(** How a method of the solver object ends. *)
Inductive attr_outcome (A : Type) : Type :=
| Done (a : A) (self : ShootingSolver)
| AttributeError (mesg : string) (class_name : string) (self : ShootingSolver).
Arguments Done {A} a self.
Arguments AttributeError {A} mesg class_name self.

Definition _validate_model_mesg : string :=
  "Attribute 'model' must have type models.Model, not {}.".

(** [_validate_model(model)], a static method. *)
Definition _validate_model (model : pyarg) : Model + string :=
  match model with
  | OtherInstance class_name => inr class_name
  | ModelInstance m => inl m
  end.

Definition _clear_cache (self : ShootingSolver) : ShootingSolver :=
  mkSolver (_model self) None None None None None.

(** The [model] setter. *)
Definition set_model (model : pyarg) (self : ShootingSolver)
  : attr_outcome unit :=
  match _validate_model model with
  | inr class_name => AttributeError _validate_model_mesg class_name self
  | inl m =>
      let self1 := mkSolver m (__numeric_jacobian self) (__numeric_profit self)
                            (__numeric_system self) (__numeric_wage self)
                            (__integrator self) in
      Done tt (_clear_cache self1)
  end.

(** The [model] getter. *)
Definition get_model (self : ShootingSolver) : Model := _model self.

Section Lambdify.

(** [sym.lambdify] applied to the symbolic system and Jacobian of a model;
    for the wage and the profit the result is the model's [numeric_wage]
    and [numeric_profit]. *)
Variable lambdify_system : Model -> Q -> Vec -> Vec.
Variable lambdify_jacobian : Model -> Q -> Vec -> Mat.

(** [integrate.ode(f=self.evaluate_rhs, jac=self.evaluate_jacobian)] *)
Variable new_ode : Ode.ode.

(** The lazily built attributes: each getter fills its cache when it is
    [None] and returns what the cache holds. *)
Definition _numeric_jacobian (self : ShootingSolver)
  : (Q -> Vec -> Mat) * ShootingSolver :=
  match __numeric_jacobian self with
  | None =>
      let f := lambdify_jacobian (_model self) in
      (f, mkSolver (_model self) (Some f) (__numeric_profit self)
                   (__numeric_system self) (__numeric_wage self)
                   (__integrator self))
  | Some f => (f, self)
  end.

Definition _numeric_profit (self : ShootingSolver)
  : (Q -> Vec -> Q) * ShootingSolver :=
  match __numeric_profit self with
  | None =>
      let f := numeric_profit (_model self) in
      (f, mkSolver (_model self) (__numeric_jacobian self) (Some f)
                   (__numeric_system self) (__numeric_wage self)
                   (__integrator self))
  | Some f => (f, self)
  end.

Definition _numeric_system (self : ShootingSolver)
  : (Q -> Vec -> Vec) * ShootingSolver :=
  match __numeric_system self with
  | None =>
      let f := lambdify_system (_model self) in
      (f, mkSolver (_model self) (__numeric_jacobian self)
                   (__numeric_profit self) (Some f) (__numeric_wage self)
                   (__integrator self))
  | Some f => (f, self)
  end.

Definition _numeric_wage (self : ShootingSolver)
  : (Q -> Vec -> Q) * ShootingSolver :=
  match __numeric_wage self with
  | None =>
      let f := numeric_wage (_model self) in
      (f, mkSolver (_model self) (__numeric_jacobian self)
                   (__numeric_profit self) (__numeric_system self) (Some f)
                   (__integrator self))
  | Some f => (f, self)
  end.

Definition get_integrator (self : ShootingSolver)
  : Ode.ode * ShootingSolver :=
  match __integrator self with
  | None =>
      (new_ode, mkSolver (_model self) (__numeric_jacobian self)
                         (__numeric_profit self) (__numeric_system self)
                         (__numeric_wage self) (Some new_ode))
  | Some o => (o, self)
  end.

(** [evaluate_jacobian(x, V)] and [evaluate_rhs(x, V)]: the cached
    function applied to the arguments. *)
Definition evaluate_jacobian (x : Q) (V : Vec) (self : ShootingSolver)
  : Mat * ShootingSolver :=
  let (f, self') := _numeric_jacobian self in (f x V, self').

Definition evaluate_rhs (x : Q) (V : Vec) (self : ShootingSolver)
  : Vec * ShootingSolver :=
  let (f, self') := _numeric_system self in (f x V, self').

(** The wage and profit evaluators as methods of the object: the cached
    function applied to the arguments, then the assertion. *)
Definition method_evaluate_wage (x : Q) (V : Vec) (self : ShootingSolver)
  : (Q + exn) * ShootingSolver :=
  let (f, self') := _numeric_wage self in
  let wage := f x V in
  if Qltb 0 wage then (inl wage, self')
  else (inr (AssertionError "Wage should be non-negative!"), self').

Definition method_evaluate_profit (x : Q) (V : Vec) (self : ShootingSolver)
  : (Q + exn) * ShootingSolver :=
  let (f, self') := _numeric_profit self in
  let profit := f x V in
  if Qltb 0 profit then (inl profit, self')
  else (inr (AssertionError "Profit should be non-negative!"), self').

End Lambdify.

(** A cache is coherent when it is empty or holds what its getter would
    build from the current model. *)
Definition coherent (lambdify_system : Model -> Q -> Vec -> Vec)
    (lambdify_jacobian : Model -> Q -> Vec -> Mat) (self : ShootingSolver)
  : Prop :=
  (forall f, __numeric_jacobian self = Some f ->
             f = lambdify_jacobian (_model self))
  /\ (forall f, __numeric_profit self = Some f ->
                f = numeric_profit (_model self))
  /\ (forall f, __numeric_system self = Some f ->
                f = lambdify_system (_model self))
  /\ (forall f, __numeric_wage self = Some f ->
                f = numeric_wage (_model self)).

(** [ShootingSolver(model)]: [__init__] assigns the [model] attribute of
    a new object, whose cache attributes start as [None]. *)
Definition __init__ (model : pyarg) : ShootingSolver + string :=
  match _validate_model model with
  | inr class_name => inr class_name
  | inl m => inl (_clear_cache (mkSolver m None None None None None))
  end.

(** The solver objects a program can hold: built by the constructor and
    then used through the [model] setter, the cached getters and the
    evaluators. *)
Inductive in_use (lambdify_system : Model -> Q -> Vec -> Vec)
    (lambdify_jacobian : Model -> Q -> Vec -> Mat) (new_ode : Ode.ode)
  : ShootingSolver -> Prop :=
| use_init (model : pyarg) (self : ShootingSolver) :
    __init__ model = inl self ->
    in_use lambdify_system lambdify_jacobian new_ode self
| use_set_model (model : pyarg) (self self' : ShootingSolver) :
    in_use lambdify_system lambdify_jacobian new_ode self ->
    set_model model self = Done tt self' ->
    in_use lambdify_system lambdify_jacobian new_ode self'
| use_set_model_error (model : pyarg) (mesg class_name : string)
    (self self' : ShootingSolver) :
    in_use lambdify_system lambdify_jacobian new_ode self ->
    set_model model self = AttributeError mesg class_name self' ->
    in_use lambdify_system lambdify_jacobian new_ode self'
| use_numeric_jacobian (self : ShootingSolver) :
    in_use lambdify_system lambdify_jacobian new_ode self ->
    in_use lambdify_system lambdify_jacobian new_ode
      (snd (_numeric_jacobian lambdify_jacobian self))
| use_numeric_profit (self : ShootingSolver) :
    in_use lambdify_system lambdify_jacobian new_ode self ->
    in_use lambdify_system lambdify_jacobian new_ode
      (snd (_numeric_profit self))
| use_numeric_system (self : ShootingSolver) :
    in_use lambdify_system lambdify_jacobian new_ode self ->
    in_use lambdify_system lambdify_jacobian new_ode
      (snd (_numeric_system lambdify_system self))
| use_numeric_wage (self : ShootingSolver) :
    in_use lambdify_system lambdify_jacobian new_ode self ->
    in_use lambdify_system lambdify_jacobian new_ode
      (snd (_numeric_wage self))
| use_integrator (self : ShootingSolver) :
    in_use lambdify_system lambdify_jacobian new_ode self ->
    in_use lambdify_system lambdify_jacobian new_ode
      (snd (get_integrator new_ode self)).

(** What the solver-free evaluators of the first part hand back, as a
    value or an exception. *)
Definition result_of {A} (o : outcome A) : option (A + exn) :=
  match o with
  | Normal a _ => Some (inl a)
  | Raised e _ => Some (inr e)
  | OutOfFuel _ => None
  end.

(** * The loop bodies over machine arithmetic

    The part of the solver that computes with numbers, with the
    arithmetic as a parameter: the same methods, written once more over
    an arbitrary number type with its operations and comparisons, so that
    they can be run on binary64, the type the program computes with. *)

(** The operations of the number type the solver uses. *)
Record Arith : Type := mkArith
  { num : Type;
    zero : num;                   (* [0.0] *)
    half : num;                   (* [0.5] *)
    add : num -> num -> num;      (* [a + b] *)
    sub : num -> num -> num;      (* [a - b] *)
    mul : num -> num -> num;      (* [a * b] *)
    opp : num -> num;             (* [-a] *)
    absolute : num -> num;        (* [abs(a)] *)
    less : num -> num -> bool;    (* [a < b] *)
    less_eq : num -> num -> bool  (* [a <= b] *) }.

(** Python floats: IEEE 754 binary64, rounding to nearest even. *)
Definition binary64 : Arith :=
  mkArith float 0%float 0.5%float PrimFloat.add PrimFloat.sub PrimFloat.mul
          PrimFloat.opp PrimFloat.abs PrimFloat.ltb PrimFloat.leb.

Module Machine.

Section Arithmetic.

Variable A : Arith.

Definition Vec : Type := (num A * num A)%type.

Definition V0 (V : Vec) : num A := fst V.
Definition V1 (V : Vec) : num A := snd V.

Record ode : Type := mk_ode
  { t : num A;
    y : Vec;
    success : bool;
    method : string }.

Definition set_initial_value (o : ode) (V : Vec) (x : num A) : ode :=
  mk_ode x V true (method o).

Record Model : Type := mkModel
  { assortativity : string;
    workers_lower : num A;
    workers_upper : num A;
    firms_lower : num A;
    firms_upper : num A;
    numeric_wage : num A -> Vec -> num A;
    numeric_profit : num A -> Vec -> num A }.

Record Row : Type := mkRow
  { row_x : num A; row_mu : num A; row_theta : num A;
    row_wage : num A; row_profit : num A }.

Definition hstack (x : num A) (V : Vec) (wage profit : num A) : Row :=
  mkRow x (V0 V) (V1 V) wage profit.

Record line : Type := Line { text : string; arg : option (num A) }.

Record State : Type := mkState
  { integrator : ode;
    solution : list Row;
    stdout : list line }.

Inductive outcome (R : Type) : Type :=
| Normal (a : R) (s : State)
| Raised (e : exn) (s : State).
Arguments Normal {R} a s.
Arguments Raised {R} e s.

Definition M (R : Type) : Type := State -> outcome R.

Definition final_state {R} (o : outcome R) : State :=
  match o with
  | Normal _ s => s
  | Raised _ s => s
  end.

Definition ret {R} (a : R) : M R := fun s => Normal a s.

Definition bind {R R'} (c : M R) (k : R -> M R') : M R' :=
  fun s =>
    match c s with
    | Normal a s' => k a s'
    | Raised e s' => Raised e s'
    end.

Definition raise {R} (e : exn) : M R := fun s => Raised e s.

Definition get : M State := fun s => Normal s s.

Definition assert (cond : bool) (mesg : string) : M unit :=
  if cond then ret tt else raise (AssertionError mesg).

Definition print (mesg : string) : M unit :=
  fun s => Normal tt (mkState (integrator s) (solution s)
                              (stdout s ++ [Line mesg None])).

Definition print_format (mesg : string) (v : num A) : M unit :=
  fun s => Normal tt (mkState (integrator s) (solution s)
                              (stdout s ++ [Line mesg (Some v)])).

Definition set_solution (rows : list Row) : M unit :=
  fun s => Normal tt (mkState (integrator s) rows (stdout s)).

Definition update_integrator (f : ode -> ode) : M unit :=
  fun s => Normal tt (mkState (f (integrator s)) (solution s) (stdout s)).

Definition vstack_solution (step : Row) : M unit :=
  fun s => Normal tt (mkState (integrator s) (solution s ++ [step]) (stdout s)).

Definition _almost_zero_profit (profit tol : num A) : bool :=
  less_eq A profit tol.

Definition _almost_zero_wage (wage tol : num A) : bool :=
  less_eq A wage tol.

Definition _converged_firms (s : State) (bound tol : num A) : bool :=
  if less_eq A (absolute A (sub A (V0 (y (integrator s))) bound)) tol
  then true else false.

Definition _converged_workers (s : State) (bound tol : num A) : bool :=
  if less_eq A (absolute A (sub A (t (integrator s)) bound)) tol
  then true else false.

Definition _exhausted_firms (s : State) (bound tol : num A) : bool :=
  if less A (sub A (V0 (y (integrator s))) bound) (opp A tol)
  then true else false.

Definition _exhausted_workers (m : Model) (s : State) (bound tol : num A)
  : bool :=
  if String.eqb (assortativity m) "positive"
  then (if less A (sub A (t (integrator s)) bound) (opp A tol)
        then true else false)
  else (if less A tol (sub A (t (integrator s)) bound)
        then true else false).

Definition _guess_firm_size_upper_too_low (s : State) (bound tol : num A)
  : bool :=
  less_eq A (absolute A (sub A (V1 (y (integrator s))) bound)) tol.

Definition evaluate_profit (m : Model) (x : num A) (V : Vec) : M (num A) :=
  let profit := numeric_profit m x V in
  bind (assert (less A (zero A) profit) "Profit should be non-negative!")
       (fun _ => ret profit).

Definition evaluate_wage (m : Model) (x : num A) (V : Vec) : M (num A) :=
  let wage := numeric_wage m x V in
  bind (assert (less A (zero A) wage) "Wage should be non-negative!")
       (fun _ => ret wage).

Record Bracket : Type := mkBracket
  { firm_size_lower : num A;
    firm_size_upper : num A;
    guess_firm_size : num A }.

Inductive control : Type :=
| Break
| Continue (b : Bracket).

Variable model : Model.

Variable integrate : ode -> num A -> ode.

Definition _reset_negative_assortative_solution (firm_size : num A)
  : M unit :=
  let x_lower := workers_lower model in
  let y_upper := firms_upper model in
  let initial_V := (y_upper, firm_size) in
  bind (update_integrator (fun o => set_initial_value o initial_V x_lower))
       (fun _ =>
  bind (evaluate_wage model x_lower initial_V) (fun wage =>
  bind (evaluate_profit model x_lower initial_V) (fun profit =>
  set_solution [hstack x_lower initial_V wage profit]))).

Definition _reset_positive_assortative_solution (firm_size : num A)
  : M unit :=
  let x_upper := workers_upper model in
  let y_upper := firms_upper model in
  let initial_V := (y_upper, firm_size) in
  bind (update_integrator (fun o => set_initial_value o initial_V x_upper))
       (fun _ =>
  bind (evaluate_wage model x_upper initial_V) (fun wage =>
  bind (evaluate_profit model x_upper initial_V) (fun profit =>
  set_solution [hstack x_upper initial_V wage profit]))).

(** [firm_size_upper = guess_firm_size] followed by
    [guess_firm_size = 0.5 * (firm_size_upper + firm_size_lower)]. *)
Definition too_high (reset : num A -> M unit) (mesg : string) (b : Bracket)
  : M control :=
  bind (print_format mesg (guess_firm_size b)) (fun _ =>
  let firm_size_upper' := guess_firm_size b in
  let guess_firm_size' :=
    mul A (half A) (add A firm_size_upper' (firm_size_lower b)) in
  bind (reset guess_firm_size') (fun _ =>
  ret (Continue (mkBracket (firm_size_lower b) firm_size_upper'
                           guess_firm_size')))).

(** [firm_size_lower = guess_firm_size] followed by
    [guess_firm_size = 0.5 * (firm_size_upper + firm_size_lower)]. *)
Definition too_low (reset : num A -> M unit) (mesg : string) (b : Bracket)
  : M control :=
  bind (print_format mesg (guess_firm_size b)) (fun _ =>
  let firm_size_lower' := guess_firm_size b in
  let guess_firm_size' :=
    mul A (half A) (add A (firm_size_upper b) firm_size_lower') in
  bind (reset guess_firm_size') (fun _ =>
  ret (Continue (mkBracket firm_size_lower' (firm_size_upper b)
                           guess_firm_size')))).

Definition advance (target : ode -> num A) : M (num A * num A) :=
  bind (update_integrator (fun o => integrate o (target o))) (fun _ =>
  bind get (fun s =>
  let x := t (integrator s) in
  let V := y (integrator s) in
  let mu := V0 V in
  let theta := V1 V in
  bind (assert (less A (zero A) theta) "Firm size should be non-negative!")
       (fun _ =>
  bind (evaluate_wage model x V) (fun wage =>
  bind (evaluate_profit model x V) (fun profit =>
  let step := hstack x V wage profit in
  bind (vstack_solution step) (fun _ =>
  ret (wage, profit))))))).

Definition classify_negative (tol : num A) (wage profit : num A)
    (b : Bracket) : M control :=
  let x_upper := workers_upper model in
  let y_lower := firms_lower model in
  let reset := _reset_negative_assortative_solution in
  bind get (fun s =>
  if _exhausted_workers model s x_upper tol then
    too_high reset
      "Initial guess of {} for firm size is too high! (run out of workers) " b
  else if _exhausted_firms s y_lower tol then
    too_low reset
      "Initial guess of {} for firm size is too low!(run out of firms)" b
  else if _converged_workers s x_upper tol then
    if _converged_firms s y_lower tol then
      bind (print "Success! Found equilibrium where all workers and firms are matched")
           (fun _ => ret Break)
    else if negb (_exhausted_firms s y_lower tol)
            && _almost_zero_profit profit tol then
      bind (print "Success! Found equilibrium with excess firms.")
           (fun _ => ret Break)
    else if negb (_exhausted_firms s y_lower tol)
            && negb (_almost_zero_profit profit tol) then
      too_high reset
        "Firms about and positive profits to be had: initial guess of {} for firm size is too high!" b
    else
      too_low reset
        "Exhausted all firms: initial guess of {} for firm size is too low!" b
  else if _converged_firms s y_lower tol then
    if _converged_workers s x_upper tol then
      ret (Continue b)
    else if negb (_exhausted_workers model s x_upper tol)
            && _almost_zero_wage wage tol then
      bind (print "Success! Found equilibrium with excess workers.")
           (fun _ => ret Break)
    else if negb (_exhausted_workers model s x_upper tol)
            && negb (_almost_zero_wage wage tol) then
      too_low reset
        "Workers still unmatched but wages are not zero: initial guess of {} for firm size is too low." b
    else
      too_high reset
        "Exhausted all workers: initial guess of {} for firm size is too high!" b
  else
    ret (Continue b)).

Definition classify_positive (tol : num A) (b : Bracket) : M control :=
  let x_lower := workers_lower model in
  let y_lower := firms_lower model in
  let reset := _reset_positive_assortative_solution in
  bind get (fun s =>
  if _converged_workers s x_lower tol && _converged_firms s y_lower tol then
    bind (print "Success! All workers and firms are matched")
         (fun _ => ret Break)
  else if negb (_converged_workers s x_lower tol)
          && _exhausted_firms s y_lower tol then
    too_low reset
      "Exhausted firms: initial guess of {} for firm size is too low." b
  else if _converged_workers s x_lower tol
          && _exhausted_firms s y_lower tol then
    too_low reset
      "Exhausted firms: Initial guess of {} for firm size was too low!" b
  else if _converged_workers s x_lower tol
          && negb (_exhausted_firms s y_lower tol) then
    too_high reset
      "Exhausted workers: initial guess of {} for firm size is too high!" b
  else
    ret (Continue b)).

Definition ceiling_reached (guess_firm_size_upper tol : num A) : M bool :=
  bind get (fun s =>
  if _guess_firm_size_upper_too_low s guess_firm_size_upper tol then
    bind (print failure_mesg) (fun _ => ret true)
  else ret false).

Definition negative_body (guess_firm_size_upper tol step_size : num A)
    (b : Bracket) : M control :=
  bind (ceiling_reached guess_firm_size_upper tol) (fun stop =>
  if stop : bool then ret Break
  else
    bind (advance (fun o => add A (t o) step_size)) (fun wp =>
    classify_negative tol (fst wp) (snd wp) b)).

Definition positive_body (guess_firm_size_upper tol step_size : num A)
    (b : Bracket) : M control :=
  bind (ceiling_reached guess_firm_size_upper tol) (fun stop =>
  if stop : bool then ret Break
  else
    bind (advance (fun o => sub A (t o) step_size)) (fun wp =>
    classify_positive tol b)).

Definition initial_bracket (guess_firm_size_upper : num A) : Bracket :=
  let firm_size_lower := zero A in
  let firm_size_upper := guess_firm_size_upper in
  let guess_firm_size :=
    mul A (half A) (add A firm_size_upper firm_size_lower) in
  mkBracket firm_size_lower firm_size_upper guess_firm_size.

(** The loop body of the chosen driver. *)
Definition body_of (v : variant)
  : num A -> num A -> num A -> Bracket -> M control :=
  match v with
  | Negative => negative_body
  | Positive => positive_body
  end.

(** [n] passes through the loop body, each reaching the next loop test;
    the locals and the state after the last one. *)
Fixpoint passes (v : variant) (ceiling tol step_size : num A) (n : nat)
    (b : Bracket) (s : State) : option (Bracket * State) :=
  match n with
  | O => Some (b, s)
  | S n' =>
      match body_of v ceiling tol step_size b s with
      | Normal (Continue b') s' => passes v ceiling tol step_size n' b' s'
      | _ => None
      end
  end.

(** The state after the reset of a trial with guess [g], used to start
    a run at a loop test. *)
Definition reset_state (v : variant) (g : num A) (name : string) : State :=
  let x0 := match v with
            | Negative => workers_lower model
            | Positive => workers_upper model
            end in
  mkState (mk_ode x0 (firms_upper model, g) true name)
          [mkRow x0 (firms_upper model) g
                 (numeric_wage model x0 (firms_upper model, g))
                 (numeric_profit model x0 (firms_upper model, g))]
          [].

End Arithmetic.

End Machine.

(** ** A model and a stepper on binary64 *)

(** Workers and firms on [0, 1], wage and profit constantly 1. *)
Definition float_toy_model : Machine.Model binary64 :=
  Machine.mkModel binary64 "negative" 0%float 1%float 0%float 1%float
                  (fun _ _ => 1%float) (fun _ _ => 1%float).

(** A stepper that runs out of firms when the firm size is below 0.0625
    and out of workers otherwise. *)
Definition float_toy_integrate (o : Machine.ode binary64) (target : float)
  : Machine.ode binary64 :=
  if PrimFloat.ltb (snd (Machine.y binary64 o)) 0.0625%float
  then Machine.mk_ode binary64 target
         ((-1)%float, snd (Machine.y binary64 o)) true
         (Machine.method binary64 o)
  else Machine.mk_ode binary64 2%float
         (1%float, snd (Machine.y binary64 o)) true
         (Machine.method binary64 o).

(** A model whose wage is not a number. *)
Definition float_nan_model : Machine.Model binary64 :=
  Machine.mkModel binary64 "negative" 0%float 1%float 0%float 1%float
                  (fun _ _ => nan) (fun _ _ => nan).

(** The rational number a finite binary64 number stands for. *)
Definition exact_value (f : float) : Q :=
  match Prim2SF f with
  | S754_finite sign m e =>
      (if sign then - (1) else 1) * inject_Z (Z.pos m) * Qpower 2 e
  | _ => 0
  end.

(** The locals after [n] passes of the binary64 driver on the toy model,
    from the first loop test of a solve with the given ceiling. *)
Definition float_bracket_after (ceiling : float) (n : nat)
  : option (Machine.Bracket binary64) :=
  match Machine.passes binary64 float_toy_model float_toy_integrate Negative
          ceiling 0%float 0.5%float n
          (Machine.initial_bracket binary64 ceiling)
          (Machine.reset_state binary64 float_toy_model Negative
             (Machine.guess_firm_size binary64
                (Machine.initial_bracket binary64 ceiling)) "dopri5") with
  | Some (b, _) => Some b
  | None => None
  end.

(** The ceiling guess 0.1, as the nearest binary64 number. *)
Definition one_tenth : float := 0x1.999999999999ap-4%float.

Arguments Machine.Normal {A R} a s.
Arguments Machine.Raised {A R} e s.
Arguments Machine.Break {A}.
Arguments Machine.Continue {A} b.
Arguments Machine.firm_size_lower {A} b.
Arguments Machine.firm_size_upper {A} b.
Arguments Machine.guess_firm_size {A} b.

(** One bound of [b] replaced by its guess, the other kept, and the new
    guess computed as [0.5 * (firm_size_upper + firm_size_lower)] from
    the new bounds. *)
Definition one_bound_replaced {A : Arith} (b b' : Machine.Bracket A) : Prop :=
  ((Machine.firm_size_upper b' = Machine.guess_firm_size b
    /\ Machine.firm_size_lower b' = Machine.firm_size_lower b)
   \/ (Machine.firm_size_lower b' = Machine.guess_firm_size b
       /\ Machine.firm_size_upper b' = Machine.firm_size_upper b))
  /\ Machine.guess_firm_size b'
     = mul A (half A)
           (add A (Machine.firm_size_upper b') (Machine.firm_size_lower b')).

(** A row whose wage and profit are positive. *)
Definition paid_row (r : Row) : Prop := 0 < row_wage r /\ 0 < row_profit r.

(** * Properties of the classifier and the evaluators *)

(** ** Boolean comparisons against their propositions *)

Lemma Qleb_iff (a b : Q) : Qleb a b = true <-> a <= b.
Proof. unfold Qleb. apply Qle_bool_iff. Qed.

Lemma Qltb_iff (a b : Q) : Qltb a b = true <-> a < b.
Proof.
  unfold Qltb. rewrite negb_true_iff, <- not_true_iff_false, Qle_bool_iff.
  split; [apply Qnot_le_lt | apply Qlt_not_le].
Qed.

Lemma Qleb_false_iff (a b : Q) : Qleb a b = false <-> b < a.
Proof.
  rewrite <- not_true_iff_false, Qleb_iff.
  split; [apply Qnot_le_lt | apply Qlt_not_le].
Qed.

Lemma Qltb_false_iff (a b : Q) : Qltb a b = false <-> b <= a.
Proof.
  rewrite <- not_true_iff_false, Qltb_iff.
  split; [apply Qnot_lt_le | apply Qle_not_lt].
Qed.

(** [|v| <= tol] as a two-sided bound, the form [lra] can use. *)
Lemma Qabs_le_iff (v tol : Q) : Qabs v <= tol <-> - tol <= v /\ v <= tol.
Proof. apply Qabs_Qle_condition. Qed.

Lemma _converged_firms_iff (s : State) (bound tol : Q) :
  _converged_firms s bound tol = true <-> Qabs (mu_of s - bound) <= tol.
Proof.
  unfold _converged_firms, mu_of.
  destruct (Qleb _ tol) eqn:E.
  - apply Qleb_iff in E. tauto.
  - apply Qleb_false_iff in E. split; [discriminate |].
    intros H. exfalso. apply (Qlt_irrefl tol). eapply Qlt_le_trans; eauto.
Qed.

Lemma _converged_workers_iff (s : State) (bound tol : Q) :
  _converged_workers s bound tol = true
  <-> Qabs (Ode.t (integrator s) - bound) <= tol.
Proof.
  unfold _converged_workers.
  destruct (Qleb _ tol) eqn:E.
  - apply Qleb_iff in E. tauto.
  - apply Qleb_false_iff in E. split; [discriminate |].
    intros H. exfalso. apply (Qlt_irrefl tol). eapply Qlt_le_trans; eauto.
Qed.

Lemma _exhausted_firms_iff (s : State) (bound tol : Q) :
  _exhausted_firms s bound tol = true <-> mu_of s - bound < - tol.
Proof.
  unfold _exhausted_firms, mu_of.
  destruct (Qltb _ (- tol)) eqn:E.
  - apply Qltb_iff in E. tauto.
  - apply Qltb_false_iff in E. split; [discriminate |].
    intros H. exfalso. apply (Qlt_irrefl (- tol)). eapply Qle_lt_trans; eauto.
Qed.

Lemma _exhausted_workers_positive (m : Model) (s : State) (bound tol : Q) :
  assortativity m = "positive"%string ->
  (_exhausted_workers m s bound tol = true
   <-> Ode.t (integrator s) - bound < - tol).
Proof.
  intros Hm. unfold _exhausted_workers. rewrite Hm, String.eqb_refl.
  destruct (Qltb _ (- tol)) eqn:E.
  - apply Qltb_iff in E. tauto.
  - apply Qltb_false_iff in E. split; [discriminate |].
    intros H. exfalso. apply (Qlt_irrefl (- tol)). eapply Qle_lt_trans; eauto.
Qed.

Lemma _exhausted_workers_negative (m : Model) (s : State) (bound tol : Q) :
  assortativity m <> "positive"%string ->
  (_exhausted_workers m s bound tol = true
   <-> tol < Ode.t (integrator s) - bound).
Proof.
  intros Hm. unfold _exhausted_workers.
  apply String.eqb_neq in Hm. rewrite Hm.
  destruct (Qltb tol _) eqn:E.
  - apply Qltb_iff in E. tauto.
  - apply Qltb_false_iff in E. split; [discriminate |].
    intros H. exfalso. apply (Qlt_irrefl tol). eapply Qlt_le_trans; eauto.
Qed.

(** C1 (as the code has it).  [_converged_firms] tests [integrator.y[0]],
    the component the drivers unpack as [mu]: it holds exactly when
    [|mu - bound| <= tol], whatever [theta] is. *)
Theorem converged_firms_reads_mu (s : State) (bound tol : Q) :
  (_converged_firms s bound tol = true <-> Qabs (mu_of s - bound) <= tol)
  /\ (forall theta' : Q,
        _converged_firms
          (mkState (Ode.mk (Ode.t (integrator s)) (mu_of s, theta')
                           (Ode.success (integrator s))
                           (Ode.method (integrator s)))
                   (solution s) (stdout s)) bound tol
        = _converged_firms s bound tol).
Proof.
  split.
  - apply _converged_firms_iff.
  - intros theta'. reflexivity.
Qed.

(** C1 as stated fails: with [mu = 0] and [theta = 5] the predicate holds
    for bound 0 and tolerance 0, although [|theta - bound| = 5]. *)
Lemma converged_firms_not_theta :
  ~ (_converged_firms (state_at 0 0 5 true) 0 0 = true
     <-> Qabs (theta_of (state_at 0 0 5 true) - 0) <= 0).
Proof.
  intros [H _]. specialize (H eq_refl). vm_compute in H. apply H. reflexivity.
Qed.

(** C2 (as the code has it).  [_exhausted_firms] tests [integrator.y[0]],
    the component the drivers unpack as [mu]: it holds exactly when
    [mu - bound < -tol], whatever [theta] is. *)
Theorem exhausted_firms_reads_mu (s : State) (bound tol : Q) :
  (_exhausted_firms s bound tol = true <-> mu_of s - bound < - tol)
  /\ (forall theta' : Q,
        _exhausted_firms
          (mkState (Ode.mk (Ode.t (integrator s)) (mu_of s, theta')
                           (Ode.success (integrator s))
                           (Ode.method (integrator s)))
                   (solution s) (stdout s)) bound tol
        = _exhausted_firms s bound tol).
Proof.
  split.
  - apply _exhausted_firms_iff.
  - intros theta'. reflexivity.
Qed.

(** C2 as stated fails: with [mu = 5] and [theta = 0], bound 1 and
    tolerance 0, [theta - bound = -1 < -tol] but the predicate is false. *)
Lemma exhausted_firms_not_theta :
  ~ (_exhausted_firms (state_at 0 5 0 true) 1 0 = true
     <-> theta_of (state_at 0 5 0 true) - 1 < - 0).
Proof.
  intros [_ H]. assert (E : theta_of (state_at 0 5 0 true) - 1 < - 0)
    by reflexivity.
  apply H in E. vm_compute in E. discriminate.
Qed.

(** C6.  Convergence excludes exhaustion: a component within tolerance of
    its bound is classified as converged, and the matching exhaustion
    predicate is false, for workers under either assortativity and for
    firms.  In particular this holds exactly at tolerance. *)
Theorem converged_excludes_exhausted
    (m : Model) (s : State) (bound tol : Q) :
  0 <= tol ->
  (Qabs (Ode.t (integrator s) - bound) <= tol ->
     _converged_workers s bound tol = true
     /\ _exhausted_workers m s bound tol = false)
  /\ (Qabs (mu_of s - bound) <= tol ->
        _converged_firms s bound tol = true
        /\ _exhausted_firms s bound tol = false).
Proof.
  intros _. split; intros H.
  - split; [apply _converged_workers_iff; exact H |].
    apply Qabs_le_iff in H. destruct H as [Hlo Hhi].
    apply not_true_iff_false. intros E.
    destruct (string_dec (assortativity m) "positive") as [Hm | Hm].
    + apply (_exhausted_workers_positive m s bound tol Hm) in E. lra.
    + apply (_exhausted_workers_negative m s bound tol Hm) in E. lra.
  - split; [apply _converged_firms_iff; exact H |].
    apply Qabs_le_iff in H. destruct H as [Hlo Hhi].
    apply not_true_iff_false. intros E.
    apply _exhausted_firms_iff in E. lra.
Qed.

(** A trajectory exactly at tolerance: [t] and [mu] both lie 1/10 from
    the bound 1 with tolerance 1/10, under either assortativity. *)
Lemma converged_excludes_exhausted_witness :
  0 <= 1 # 10
  /\ (_converged_workers (state_at (11 # 10) (9 # 10) 1 true) 1 (1 # 10) = true
      /\ _exhausted_workers (toy_model "negative")
            (state_at (11 # 10) (9 # 10) 1 true) 1 (1 # 10) = false)
  /\ (_converged_firms (state_at (11 # 10) (9 # 10) 1 true) 1 (1 # 10) = true
      /\ _exhausted_firms (state_at (11 # 10) (9 # 10) 1 true) 1 (1 # 10)
         = false).
Proof.
  assert (Htol : 0 <= 1 # 10) by (vm_compute; discriminate).
  destruct (converged_excludes_exhausted (toy_model "negative")
              (state_at (11 # 10) (9 # 10) 1 true) 1 (1 # 10) Htol)
    as [Hw Hf].
  split; [exact Htol |]. split.
  - apply Hw. vm_compute; discriminate.
  - apply Hf. vm_compute; discriminate.
Defined.

(** * Properties of the resets and the drivers *)

(** ** The reset methods *)

Lemma reset_of_eq (m : Model) (v : variant) (g : Q) (s : State) :
  reset_of m v g s =
  let s1 := mkState (set_initial_value (integrator s) (initial_V m g)
                                       (start_of m v))
                    (solution s) (stdout s) in
  if Qltb 0 (numeric_wage m (start_of m v) (initial_V m g)) then
    if Qltb 0 (numeric_profit m (start_of m v) (initial_V m g)) then
      Normal tt (reset_state m v g s)
    else Raised (AssertionError "Profit should be non-negative!") s1
  else Raised (AssertionError "Wage should be non-negative!") s1.
Proof.
  destruct v; cbn -[Qltb];
    unfold _reset_negative_assortative_solution,
           _reset_positive_assortative_solution,
           evaluate_wage, evaluate_profit, bind, update_integrator, assert,
           ret, raise, set_solution, initial_V;
    cbn -[Qltb];
    destruct (Qltb 0 (numeric_wage m _ _)); cbn -[Qltb]; try reflexivity;
    destruct (Qltb 0 (numeric_profit m _ _)); reflexivity.
Qed.

Lemma reset_of_normal (m : Model) (v : variant) (g : Q) (s : State) :
  0 < numeric_wage m (start_of m v) (initial_V m g) ->
  0 < numeric_profit m (start_of m v) (initial_V m g) ->
  reset_of m v g s = Normal tt (reset_state m v g s).
Proof.
  intros Hw Hp. rewrite reset_of_eq. cbv zeta.
  apply Qltb_iff in Hw, Hp. rewrite Hw, Hp. reflexivity.
Qed.

Lemma reset_of_inv (m : Model) (v : variant) (g : Q) (s s' : State) (u : unit) :
  reset_of m v g s = Normal u s' ->
  s' = reset_state m v g s
  /\ 0 < numeric_wage m (start_of m v) (initial_V m g)
  /\ 0 < numeric_profit m (start_of m v) (initial_V m g).
Proof.
  rewrite reset_of_eq. cbv zeta.
  destruct (Qltb 0 (numeric_wage m _ _)) eqn:Hw; [| discriminate].
  destruct (Qltb 0 (numeric_profit m _ _)) eqn:Hp; [| discriminate].
  intros E. inversion E. apply Qltb_iff in Hw, Hp. auto.
Qed.

(** ** The retry blocks *)

Lemma too_high_inv (m : Model) (v : variant) (mesg : string) (b : Bracket)
    (s s' : State) (c : control) :
  too_high (reset_of m v) mesg b s = Normal c s' ->
  c = Continue (narrowed_above b)
  /\ s' = reset_state m v (guess_firm_size (narrowed_above b))
            (with_line s (Line mesg (Some (guess_firm_size b)))).
Proof.
  unfold too_high, bind, print_format, ret.
  fold (with_line s (Line mesg (Some (guess_firm_size b)))).
  destruct (reset_of m v _ _) as [u s1 | |] eqn:E; try discriminate.
  intros H. inversion H; subst. apply reset_of_inv in E.
  destruct E as [-> _]. split; reflexivity.
Qed.

Lemma too_low_inv (m : Model) (v : variant) (mesg : string) (b : Bracket)
    (s s' : State) (c : control) :
  too_low (reset_of m v) mesg b s = Normal c s' ->
  c = Continue (narrowed_below b)
  /\ s' = reset_state m v (guess_firm_size (narrowed_below b))
            (with_line s (Line mesg (Some (guess_firm_size b)))).
Proof.
  unfold too_low, bind, print_format, ret.
  fold (with_line s (Line mesg (Some (guess_firm_size b)))).
  destruct (reset_of m v _ _) as [u s1 | |] eqn:E; try discriminate.
  intros H. inversion H; subst. apply reset_of_inv in E.
  destruct E as [-> _]. split; reflexivity.
Qed.

Lemma print_break_inv (mesg : string) (s s' : State) (c : control) :
  (print mesg ;; ret Break) s = Normal c s' ->
  c = Break /\ s' = with_line s (Line mesg None).
Proof.
  unfold bind, print, ret. intros H. inversion H. split; reflexivity.
Qed.

Ltac classify_leaf m v :=
  match goal with
  | H : too_high _ ?mesg _ _ = Normal _ _ |- _ =>
      apply (too_high_inv m v) in H; destruct H as [-> ->];
      apply classified_too_high
  | H : too_low _ ?mesg _ _ = Normal _ _ |- _ =>
      apply (too_low_inv m v) in H; destruct H as [-> ->];
      apply classified_too_low
  | H : (print _ ;; ret Break) _ = Normal _ _ |- _ =>
      apply print_break_inv in H; destruct H as [-> ->];
      apply classified_break
  | H : ret (Continue _) _ = Normal _ _ |- _ =>
      unfold ret in H; inversion H; subst; apply classified_continue
  end.

Ltac split_ifs :=
  repeat match goal with
  | |- context [if ?c then _ else _] => destruct c; cbv iota
  end.

Lemma bind_get {A} (k : State -> M A) (s : State) :
  (s0 <- get ;; k s0) s = k s s.
Proof. reflexivity. Qed.

(** ** Classification *)

Lemma classify_negative_inv (m : Model) (tol wage profit : Q) (b : Bracket)
    (s s' : State) (c : control) :
  classify_negative m tol wage profit b s = Normal c s' ->
  classified m Negative b s c s'.
Proof.
  unfold classify_negative. rewrite bind_get. cbv zeta.
  change (_reset_negative_assortative_solution m) with (reset_of m Negative).
  split_ifs; intros H; classify_leaf m Negative.
Qed.

Lemma classify_positive_inv (m : Model) (tol : Q) (b : Bracket)
    (s s' : State) (c : control) :
  classify_positive m tol b s = Normal c s' ->
  classified m Positive b s c s'.
Proof.
  unfold classify_positive. rewrite bind_get. cbv zeta.
  change (_reset_positive_assortative_solution m) with (reset_of m Positive).
  split_ifs; intros H; classify_leaf m Positive.
Qed.

(** ** One pass through a loop body *)

Lemma advance_eq (m : Model) (integrate : Ode.ode -> Q -> Ode.ode)
    (target : Ode.ode -> Q) (s : State) :
  advance m integrate target s =
  let o := integrate (integrator s) (target (integrator s)) in
  let s1 := mkState o (solution s) (stdout s) in
  let wage := numeric_wage m (Ode.t o) (Ode.y o) in
  let profit := numeric_profit m (Ode.t o) (Ode.y o) in
  if Qltb 0 (V1 (Ode.y o)) then
    if Qltb 0 wage then
      if Qltb 0 profit then
        Normal (wage, profit)
               (mkState o
                  (solution s ++ [hstack (Ode.t o) (Ode.y o) wage profit])
                  (stdout s))
      else Raised (AssertionError "Profit should be non-negative!") s1
    else Raised (AssertionError "Wage should be non-negative!") s1
  else Raised (AssertionError "Firm size should be non-negative!") s1.
Proof.
  unfold advance, evaluate_wage, evaluate_profit, bind, update_integrator,
         get, assert, ret, raise, vstack_solution.
  cbn -[Qltb].
  destruct (Qltb 0 (V1 _)); cbn -[Qltb]; try reflexivity.
  destruct (Qltb 0 (numeric_wage m _ _)); cbn -[Qltb]; try reflexivity.
  destruct (Qltb 0 (numeric_profit m _ _)); reflexivity.
Qed.

Lemma advance_inv (m : Model) (integrate : Ode.ode -> Q -> Ode.ode)
    (target : Ode.ode -> Q) (s s' : State) (wp : Q * Q) :
  advance m integrate target s = Normal wp s' ->
  integrator s' = integrate (integrator s) (target (integrator s))
  /\ solution s' =
       solution s ++ [hstack (Ode.t (integrator s')) (Ode.y (integrator s'))
                             (fst wp) (snd wp)]
  /\ stdout s' = stdout s.
Proof.
  rewrite advance_eq. cbv zeta.
  destruct (Qltb 0 (V1 _)); [| discriminate].
  destruct (Qltb 0 (numeric_wage m _ _)); [| discriminate].
  destruct (Qltb 0 (numeric_profit m _ _)); [| discriminate].
  intros H. inversion H; subst. cbn. auto.
Qed.

Lemma ceiling_reached_eq (ceiling tol : Q) (s : State) :
  ceiling_reached ceiling tol s =
  if _guess_firm_size_upper_too_low s ceiling tol
  then Normal true (with_line s (Line failure_mesg None))
  else Normal false s.
Proof.
  unfold ceiling_reached. rewrite bind_get.
  destruct (_guess_firm_size_upper_too_low s ceiling tol); reflexivity.
Qed.

Lemma body_of_eq (m : Model) (integrate : Ode.ode -> Q -> Ode.ode)
    (v : variant) (ceiling tol step_size : Q) (b : Bracket) (s : State) :
  body_of m integrate v ceiling tol step_size b s =
  if _guess_firm_size_upper_too_low s ceiling tol
  then Normal Break (with_line s (Line failure_mesg None))
  else
    match advance m integrate (target_of v step_size) s with
    | Normal wp s1 =>
        match v with
        | Negative => classify_negative m tol (fst wp) (snd wp) b s1
        | Positive => classify_positive m tol b s1
        end
    | Raised e s1 => Raised e s1
    | OutOfFuel s1 => OutOfFuel s1
    end.
Proof.
  destruct v; cbn [body_of]; unfold negative_body, positive_body;
    unfold bind at 1; rewrite ceiling_reached_eq;
    destruct (_guess_firm_size_upper_too_low s ceiling tol); reflexivity.
Qed.

Lemma body_of_inv (m : Model) (integrate : Ode.ode -> Q -> Ode.ode)
    (v : variant) (ceiling tol step_size : Q) (b : Bracket)
    (s s' : State) (c : control) :
  body_of m integrate v ceiling tol step_size b s = Normal c s' ->
  (_guess_firm_size_upper_too_low s ceiling tol = true
   /\ c = Break /\ s' = with_line s (Line failure_mesg None))
  \/ (_guess_firm_size_upper_too_low s ceiling tol = false
      /\ exists wp s1,
           advance m integrate (target_of v step_size) s = Normal wp s1
           /\ classified m v b s1 c s').
Proof.
  rewrite body_of_eq.
  destruct (_guess_firm_size_upper_too_low s ceiling tol).
  - intros H. inversion H. left. auto.
  - destruct (advance m integrate _ s) as [wp s1 | |] eqn:E;
      try discriminate.
    intros H. right. split; [reflexivity |]. exists wp, s1.
    split; [reflexivity |].
    destruct v;
      [apply classify_negative_inv in H | apply classify_positive_inv in H];
      exact H.
Qed.

(** ** The loop *)

Lemma while_unsuccessful (body : Bracket -> M control) (fuel : nat)
    (b : Bracket) (s : State) :
  successful (integrator s) = false ->
  while_successful body (S fuel) b s = Normal tt s.
Proof. intros H. cbn. rewrite H. reflexivity. Qed.

Lemma while_break (body : Bracket -> M control) (fuel : nat)
    (b : Bracket) (s s' : State) :
  successful (integrator s) = true ->
  body b s = Normal Break s' ->
  while_successful body (S fuel) b s = Normal tt s'.
Proof. intros H E. cbn. rewrite H, E. reflexivity. Qed.

(** A property of the locals and the state that every completed pass
    keeps also holds when the loop ends. *)
Lemma while_invariant (body : Bracket -> M control)
    (I : Bracket -> State -> Prop) :
  (forall b s c s', I b s -> body b s = Normal c s' ->
                    I (bracket_after b c) s') ->
  forall fuel b s u s',
    I b s -> while_successful body fuel b s = Normal u s' ->
    exists b', I b' s'.
Proof.
  intros Hstep. induction fuel as [| fuel IH]; intros b s u s' HI H.
  - discriminate.
  - cbn in H. destruct (successful (integrator s)).
    + destruct (body b s) as [c s1 | |] eqn:E; try discriminate.
      pose proof (Hstep _ _ _ _ HI E) as HI1.
      destruct c as [| b1]; cbn in HI1.
      * inversion H; subst. exists b. exact HI1.
      * eapply IH; eauto.
    + inversion H; subst. exists b. exact HI.
Qed.

(** ** Row 0 of the solution *)

Lemma body_of_row0 (m : Model) (integrate : Ode.ode -> Q -> Ode.ode)
    (v : variant) (ceiling tol step_size : Q) (b : Bracket)
    (s s' : State) (c : control) :
  row0_is_reset m v b s ->
  body_of m integrate v ceiling tol step_size b s = Normal c s' ->
  row0_is_reset m v (bracket_after b c) s'.
Proof.
  intros [rest Hs] H. apply body_of_inv in H.
  destruct H as [(_ & -> & ->) | (_ & wp & s1 & Ha & Hc)].
  - exists rest. exact Hs.
  - apply advance_inv in Ha. destruct Ha as (_ & Hsol & _).
    rewrite Hs in Hsol. cbn in Hsol.
    destruct Hc; cbn; unfold row0_is_reset; cbn; eauto.
Qed.

Lemma loop_state_row0 (m : Model) (integrate : Ode.ode -> Q -> Ode.ode)
    (v : variant) (ceiling tol step_size : Q) (b : Bracket) (s : State) :
  loop_state m integrate v ceiling tol step_size b s ->
  row0_is_reset m v b s.
Proof.
  intros H. induction H as [s0 | b b' s s' _ IH _ Hb].
  - exists []. reflexivity.
  - exact (body_of_row0 _ _ _ _ _ _ _ _ _ _ IH Hb).
Qed.

(** ** The drivers as a whole *)

Lemma driver_of_eq (m : Model) (integrate : Ode.ode -> Q -> Ode.ode)
    (v : variant) (ceiling tol : Q) (number_knots : Z) (name : string)
    (fuel : nat) (s : State) :
  driver_of m integrate v ceiling tol number_knots name fuel s =
  match reset_of m v (guess_firm_size (initial_bracket ceiling))
          (mkState (set_integrator (integrator s) name)
                   (solution s) (stdout s)) with
  | Normal _ s1 =>
      if Qeq_bool (inject_Z (number_knots - 1)) 0
      then Raised ZeroDivisionError s1
      else
        match while_successful
                (body_of m integrate v ceiling tol
                   ((workers_upper m - workers_lower m)
                    / inject_Z (number_knots - 1)))
                fuel (initial_bracket ceiling) s1 with
        | Normal _ s2 => Normal PyNone s2
        | Raised e s2 => Raised e s2
        | OutOfFuel s2 => OutOfFuel s2
        end
  | Raised e s1 => Raised e s1
  | OutOfFuel s1 => OutOfFuel s1
  end.
Proof.
  destruct v; cbn [driver_of reset_of body_of];
    unfold _solve_negative_assortative_matching,
           _solve_positive_assortative_matching;
    cbv zeta; unfold bind at 1; unfold update_integrator at 1;
    unfold bind at 1;
    match goal with
    | |- context [match ?r with Normal _ _ => _ | _ => _ end] =>
        destruct r as [u s1 | |]; try reflexivity
    end;
    unfold bind at 1, divide;
    destruct (Qeq_bool _ 0); try reflexivity;
    unfold ret at 1, bind;
    match goal with
    | |- context [while_successful ?f ?n ?b ?x] =>
        destruct (while_successful f n b x); reflexivity
    end.
Qed.

Lemma solve_eq (m : Model) (integrate : Ode.ode -> Q -> Ode.ode)
    (ceiling tol : Q) (number_knots : Z) (name : string)
    (fuel : nat) (s : State) :
  solve m integrate ceiling tol number_knots name fuel s
  = driver_of m integrate (variant_of m) ceiling tol number_knots name fuel s.
Proof.
  unfold solve, variant_of.
  destruct (String.eqb (assortativity m) "positive");
    cbn [driver_of]; unfold bind, ret;
    match goal with
    | |- match ?d with _ => _ end = _ =>
        pose proof (driver_of_eq m integrate) as E;
        destruct d as [r s1 | |] eqn:Hd; try reflexivity
    end.
  - specialize (E Positive ceiling tol number_knots name fuel s).
    cbn [driver_of] in E. rewrite Hd in E.
    destruct (reset_of _ _ _ _); try discriminate.
    destruct (Qeq_bool _ 0); try discriminate.
    destruct (while_successful _ _ _ _); try discriminate.
    inversion E; reflexivity.
  - specialize (E Negative ceiling tol number_knots name fuel s).
    cbn [driver_of] in E. rewrite Hd in E.
    destruct (reset_of _ _ _ _); try discriminate.
    destruct (Qeq_bool _ 0); try discriminate.
    destruct (while_successful _ _ _ _); try discriminate.
    inversion E; reflexivity.
Qed.

Lemma driver_of_normal (m : Model) (integrate : Ode.ode -> Q -> Ode.ode)
    (v : variant) (ceiling tol : Q) (number_knots : Z) (name : string)
    (fuel : nat) (s s' : State) (r : pyobject) :
  driver_of m integrate v ceiling tol number_knots name fuel s = Normal r s' ->
  r = PyNone
  /\ exists g rest, solution s' = reset_row m v g :: rest.
Proof.
  rewrite driver_of_eq.
  destruct (reset_of m v _ _) as [u s1 | |] eqn:Hr; try discriminate.
  destruct (Qeq_bool _ 0); try discriminate.
  destruct (while_successful _ _ _ _) as [u2 s2 | |] eqn:Hw; try discriminate.
  intros H. inversion H; subst. split; [reflexivity |].
  apply reset_of_inv in Hr. destruct Hr as [-> _].
  destruct (while_invariant _ (row0_is_reset m v)
              (fun b s c s' HI E => body_of_row0 _ _ _ _ _ _ _ _ _ _ HI E)
              _ _ _ _ _
              (ex_intro _ [] eq_refl : row0_is_reset m v _ (reset_state _ _ _ _))
              Hw)
    as [b' [rest Hb']].
  eauto.
Qed.

(** C5.  A reset with firm-size guess [g] whose two assertions pass puts
    the integrator at [x0] with state [(mu, theta) = (firms.upper, g)],
    where [x0] is [workers.lower] for the negative assortative reset and
    [workers.upper] for the positive one, and replaces the solution by
    the single row [(x0, firms.upper, g, wage, profit)].  At every loop
    test of a driver row 0 of the solution is the reset row of the
    current guess, and a driver that completes leaves a solution whose
    row 0 is a reset row. *)
Theorem reset_installs_initial_condition
    (m : Model) (v : variant) (g : Q) (s : State) :
  0 < numeric_wage m (start_of m v) (firms_upper m, g) ->
  0 < numeric_profit m (start_of m v) (firms_upper m, g) ->
  reset_of m v g s
  = Normal tt
      (mkState
         (Ode.mk (start_of m v) (firms_upper m, g) true
                 (Ode.method (integrator s)))
         [mkRow (start_of m v) (firms_upper m) g
                (numeric_wage m (start_of m v) (firms_upper m, g))
                (numeric_profit m (start_of m v) (firms_upper m, g))]
         (stdout s))
  /\ reset_of m Negative = _reset_negative_assortative_solution m
  /\ reset_of m Positive = _reset_positive_assortative_solution m
  /\ start_of m Negative = workers_lower m
  /\ start_of m Positive = workers_upper m
  /\ (forall integrate ceiling tol step_size b s0,
        loop_state m integrate v ceiling tol step_size b s0 ->
        exists rest,
          solution s0
          = mkRow (start_of m v) (firms_upper m) (guess_firm_size b)
                  (numeric_wage m (start_of m v)
                                (firms_upper m, guess_firm_size b))
                  (numeric_profit m (start_of m v)
                                  (firms_upper m, guess_firm_size b))
            :: rest)
  /\ (forall integrate ceiling tol number_knots name fuel s0 r s1,
        driver_of m integrate v ceiling tol number_knots name fuel s0
        = Normal r s1 ->
        exists g' rest, solution s1 = reset_row m v g' :: rest).
Proof.
  intros Hw Hp. split; [| repeat split].
  - apply reset_of_normal; assumption.
  - intros integrate ceiling tol step_size b s0 H.
    exact (loop_state_row0 _ _ _ _ _ _ _ _ H).
  - intros integrate ceiling tol number_knots name fuel s0 r s1 H.
    apply driver_of_normal in H. tauto.
Qed.

(** The positive assortative reset on the toy model with guess 3/4. *)
Lemma reset_installs_initial_condition_witness :
  0 < numeric_wage (toy_model "positive")
        (start_of (toy_model "positive") Positive)
        (firms_upper (toy_model "positive"), 3 # 4)
  /\ 0 < numeric_profit (toy_model "positive")
           (start_of (toy_model "positive") Positive)
           (firms_upper (toy_model "positive"), 3 # 4)
  /\ _reset_positive_assortative_solution (toy_model "positive") (3 # 4) fresh
     = Normal tt (mkState (Ode.mk 1 (1, 3 # 4) true "")
                          [mkRow 1 1 (3 # 4) 1 1] []).
Proof.
  split; [reflexivity |]. split; [reflexivity |].
  exact (proj1 (reset_installs_initial_condition
                  (toy_model "positive") Positive (3 # 4) fresh
                  eq_refl eq_refl)).
Defined.

(** C3 (as the code has it).  [solve] has no [return] statement: a call
    that completes hands back [None], never a table or a failure value.
    The trajectory is left in the solver's [solution] attribute, a
    non-empty table whose row 0 is the reset row of some firm-size
    guess. *)
Theorem solve_returns_none
    (m : Model) (integrate : Ode.ode -> Q -> Ode.ode) (ceiling tol : Q)
    (number_knots : Z) (name : string) (fuel : nat) (s s' : State)
    (r : pyobject) :
  solve m integrate ceiling tol number_knots name fuel s = Normal r s' ->
  r = PyNone
  /\ ~ is_table_or_failure r
  /\ exists g rest, solution s' = reset_row m (variant_of m) g :: rest.
Proof.
  rewrite solve_eq. intros H. apply driver_of_normal in H.
  destruct H as [-> H]. repeat split; [intros [] | exact H].
Qed.

(** The toy model with the exact linear trajectory, ceiling 2 and three
    knots: the first trial converges, and the call returns [None]. *)
Lemma solve_returns_none_witness :
  solve (toy_model "negative") linear_integrate 2 (1 # 1000) 3 "dopri5" 10
        fresh
  = Normal PyNone
      (final_state
         (solve (toy_model "negative") linear_integrate 2 (1 # 1000) 3
                "dopri5" 10 fresh))
  /\ PyNone = PyNone
  /\ ~ is_table_or_failure PyNone
  /\ exists g rest,
       solution
         (final_state
            (solve (toy_model "negative") linear_integrate 2 (1 # 1000) 3
                   "dopri5" 10 fresh))
       = reset_row (toy_model "negative")
                   (variant_of (toy_model "negative")) g :: rest.
Proof.
  assert (Hrun :
    solve (toy_model "negative") linear_integrate 2 (1 # 1000) 3 "dopri5" 10
          fresh
    = Normal PyNone
        (final_state
           (solve (toy_model "negative") linear_integrate 2 (1 # 1000) 3
                  "dopri5" 10 fresh)))
    by (vm_compute; reflexivity).
  split; [exact Hrun |].
  exact (solve_returns_none _ _ _ _ _ _ _ _ _ _ Hrun).
Defined.

(** C3 as stated fails: the converging solve above completes, and what it
    returns is neither a table nor a failure value. *)
Lemma solve_returns_no_table :
  ~ (exists r s',
       solve (toy_model "negative") linear_integrate 2 (1 # 1000) 3
             "dopri5" 10 fresh = Normal r s'
       /\ is_table_or_failure r).
Proof.
  intros (r & s' & H & Hr). vm_compute in H. inversion H; subst.
  exact Hr.
Qed.

(** A call need not complete.  It raises when an assertion fails, here
    the wage assertion of the first reset. *)
Lemma solve_can_raise :
  solve unpaid_model linear_integrate 2 (1 # 1000) 3 "dopri5" 10 fresh
  = Raised (AssertionError "Wage should be non-negative!")
           (mkState (Ode.mk 0 (1, guess_firm_size (initial_bracket 2)) true
                            "dopri5") [] []).
Proof. vm_compute. reflexivity. Qed.

(** Under the stepper that leaves [mu] at the firms' upper bound, every
    trial of the toy model ends after one step with the workers converged
    and positive profit, so the guess is halved again and again. *)
Lemma constant_toy_pass (b : Bracket) (nm : string) (sol : list Row)
    (out : list line) :
  0 <= firm_size_lower b ->
  firm_size_lower b < guess_firm_size b ->
  guess_firm_size b <= 1 ->
  exists sol' out',
    body_of (toy_model "negative") constant_integrate Negative
            2 (1 # 1000) 1 b
            (mkState (Ode.mk 0 (1, guess_firm_size b) true nm) sol out)
    = Normal (Continue (narrowed_above b))
        (mkState (Ode.mk 0 (1, guess_firm_size (narrowed_above b)) true nm)
                 sol' out').
Proof.
  intros H0 H1 H2.
  rewrite body_of_eq.
  assert (E : _guess_firm_size_upper_too_low
                (mkState (Ode.mk 0 (1, guess_firm_size b) true nm) sol out)
                2 (1 # 1000) = false).
  { apply Qleb_false_iff. cbn.
    destruct (Qlt_le_dec (1 # 1000) (Qabs (guess_firm_size b - 2))) as [L | L];
      [exact L |].
    apply Qabs_le_iff in L. lra. }
  rewrite E, advance_eq. cbv zeta.
  assert (Et : Qltb 0 (guess_firm_size b) = true) by (apply Qltb_iff; lra).
  cbn -[Qltb Qplus]. rewrite Et.
  do 2 eexists. lazy. reflexivity.
Qed.

Lemma constant_toy_loop_runs_on (fuel : nat) :
  forall (b : Bracket) (nm : string) (sol : list Row) (out : list line),
    0 <= firm_size_lower b ->
    firm_size_lower b < guess_firm_size b ->
    guess_firm_size b <= 1 ->
    exists s',
      while_successful
        (body_of (toy_model "negative") constant_integrate Negative
                 2 (1 # 1000) 1)
        fuel b (mkState (Ode.mk 0 (1, guess_firm_size b) true nm) sol out)
      = OutOfFuel s'.
Proof.
  induction fuel as [| fuel IH]; intros b nm sol out H0 H1 H2.
  - eexists. reflexivity.
  - destruct (constant_toy_pass b nm sol out H0 H1 H2) as (sol' & out' & E).
    cbn [while_successful successful integrator Ode.success].
    rewrite E. apply IH; cbn; lra.
Qed.

(** So that solve never returns, whatever number of passes it is given. *)
Lemma solve_can_run_on (fuel : nat) :
  exists s',
    solve (toy_model "negative") constant_integrate 2 (1 # 1000) 2 "dopri5"
          fuel fresh
    = OutOfFuel s'.
Proof.
  rewrite solve_eq, driver_of_eq.
  destruct (constant_toy_loop_runs_on fuel (initial_bracket 2) "dopri5"
              [reset_row (toy_model "negative") Negative
                         (guess_firm_size (initial_bracket 2))] [])
    as [s' E]; try (vm_compute; congruence).
  exists s'.
  rewrite (reset_of_normal (toy_model "negative") Negative) by reflexivity.
  change (Qeq_bool (inject_Z (2 - 1)) 0) with false. cbv iota.
  change (variant_of (toy_model "negative")) with Negative.
  change ((workers_upper (toy_model "negative")
           - workers_lower (toy_model "negative")) / inject_Z (2 - 1))
    with 1.
  change (reset_state (toy_model "negative") Negative
            (guess_firm_size (initial_bracket 2))
            (mkState (set_integrator (integrator fresh) "dopri5")
                     (solution fresh) (stdout fresh)))
    with (mkState (Ode.mk 0 (1, guess_firm_size (initial_bracket 2)) true
                          "dopri5")
            [reset_row (toy_model "negative") Negative
                       (guess_firm_size (initial_bracket 2))] []).
  rewrite E. reflexivity.
Qed.

Lemma ceiling_reached_breaks (m : Model)
    (integrate : Ode.ode -> Q -> Ode.ode) (v : variant)
    (ceiling tol step_size : Q) (b : Bracket) (s : State) (fuel : nat) :
  successful (integrator s) = true ->
  Qabs (theta_of s - ceiling) <= tol ->
  body_of m integrate v ceiling tol step_size b s
  = Normal Break (with_line s (Line failure_mesg None))
  /\ while_successful (body_of m integrate v ceiling tol step_size)
                      (S fuel) b s
     = Normal tt (with_line s (Line failure_mesg None)).
Proof.
  intros Hs Hc.
  assert (Hb : body_of m integrate v ceiling tol step_size b s
               = Normal Break (with_line s (Line failure_mesg None))).
  { rewrite body_of_eq.
    assert (E : _guess_firm_size_upper_too_low s ceiling tol = true)
      by (apply Qleb_iff; exact Hc).
    rewrite E. reflexivity. }
  split; [exact Hb | apply while_break; assumption].
Qed.

(** C7 (as the code has it).  When a pass through the loop body of
    either driver starts with the firm-size component within tolerance of
    the ceiling guess, it prints the failure message and breaks: the loop
    ends there, with the integrator and the solution exactly as they
    stood at that loop test, so no step is taken and no row appended.
    The table is whatever the trial had built: the rows of the steps
    taken so far stay in it. *)
Theorem ceiling_reached_stops_without_stepping
    (m : Model) (integrate : Ode.ode -> Q -> Ode.ode) (v : variant)
    (ceiling tol step_size : Q) (b : Bracket) (s : State) (fuel : nat) :
  successful (integrator s) = true ->
  Qabs (theta_of s - ceiling) <= tol ->
  body_of m integrate v ceiling tol step_size b s
  = Normal Break (mkState (integrator s) (solution s)
                          (stdout s ++ [Line failure_mesg None]))
  /\ while_successful (body_of m integrate v ceiling tol step_size)
                      (S fuel) b s
     = Normal tt (mkState (integrator s) (solution s)
                          (stdout s ++ [Line failure_mesg None])).
Proof.
  intros Hs Hc.
  exact (ceiling_reached_breaks m integrate v ceiling tol step_size b s
           fuel Hs Hc).
Qed.

(** A trial of the toy model two steps in, with the firm size drifted up
    to the ceiling 4: the three rows built so far stay in the table. *)
Lemma ceiling_reached_stops_without_stepping_witness :
  successful (integrator
                (mkState (Ode.mk (1 # 2) (1, 4) true "dopri5")
                         [mkRow 0 1 2 1 1; mkRow (1 # 4) 1 3 1 1;
                          mkRow (1 # 2) 1 4 1 1] []))
  = true
  /\ Qabs (theta_of (mkState (Ode.mk (1 # 2) (1, 4) true "dopri5")
                             [mkRow 0 1 2 1 1; mkRow (1 # 4) 1 3 1 1;
                              mkRow (1 # 2) 1 4 1 1] []) - 4) <= 1 # 1000
  /\ while_successful
       (body_of (toy_model "negative") drifting_integrate Negative
                4 (1 # 1000) (1 # 4))
       1 (initial_bracket 4)
       (mkState (Ode.mk (1 # 2) (1, 4) true "dopri5")
                [mkRow 0 1 2 1 1; mkRow (1 # 4) 1 3 1 1;
                 mkRow (1 # 2) 1 4 1 1] [])
     = Normal tt
         (mkState (Ode.mk (1 # 2) (1, 4) true "dopri5")
                  [mkRow 0 1 2 1 1; mkRow (1 # 4) 1 3 1 1;
                   mkRow (1 # 2) 1 4 1 1]
                  [Line failure_mesg None]).
Proof.
  split; [reflexivity |]. split; [vm_compute; discriminate |].
  refine (proj2 (ceiling_reached_stops_without_stepping
                   (toy_model "negative") drifting_integrate Negative
                   4 (1 # 1000) (1 # 4) (initial_bracket 4)
                   (mkState (Ode.mk (1 # 2) (1, 4) true "dopri5")
                            [mkRow 0 1 2 1 1; mkRow (1 # 4) 1 3 1 1;
                             mkRow (1 # 2) 1 4 1 1] [])
                   0 eq_refl _)).
  vm_compute; discriminate.
Defined.

(** C7 as stated fails in its last part.  Solving the toy model with the
    ceiling 4 under a stepper that lets the firm size drift up by one per
    step, the first trial starts at 2 and reaches the ceiling after two
    steps without any retry; the ceiling failure then ends the solve with
    three rows in the table, not the reset row alone. *)
Lemma ceiling_failure_mid_trial :
  ~ (forall s' : State,
       solve (toy_model "negative") drifting_integrate 4 (1 # 1000) 5
             "dopri5" 10 fresh = Normal PyNone s' ->
       stdout s' = [Line failure_mesg None] ->
       exists g, solution s' = [reset_row (toy_model "negative") Negative g]).
Proof.
  intros H.
  destruct (H (final_state
                 (solve (toy_model "negative") drifting_integrate 4
                        (1 # 1000) 5 "dopri5" 10 fresh)))
    as [g Hg].
  - vm_compute. reflexivity.
  - vm_compute. reflexivity.
  - vm_compute in Hg. discriminate Hg.
Qed.

(** A solve whose very first guess lies within tolerance of the ceiling
    ends at the first loop test: nothing is integrated and the solution
    is the row of the first reset. *)
Lemma solve_stops_at_low_ceiling
    (m : Model) (integrate : Ode.ode -> Q -> Ode.ode) (ceiling tol : Q)
    (number_knots : Z) (name : string) (fuel : nat) (s : State) :
  let g := guess_firm_size (initial_bracket ceiling) in
  Qabs (g - ceiling) <= tol ->
  0 < numeric_wage m (start_of m (variant_of m)) (firms_upper m, g) ->
  0 < numeric_profit m (start_of m (variant_of m)) (firms_upper m, g) ->
  number_knots <> 1%Z ->
  solve m integrate ceiling tol number_knots name (S fuel) s
  = Normal PyNone
      (mkState (Ode.mk (start_of m (variant_of m)) (firms_upper m, g) true name)
               [reset_row m (variant_of m) g]
               (stdout s ++ [Line failure_mesg None])).
Proof.
  intros g Hc Hw Hp Hk.
  rewrite solve_eq, driver_of_eq.
  fold g. rewrite (reset_of_normal m (variant_of m) g _ Hw Hp).
  destruct (Qeq_bool (inject_Z (number_knots - 1)) 0) eqn:E.
  - exfalso. apply Qeq_bool_iff in E. unfold Qeq in E. cbn in E. lia.
  - destruct (ceiling_reached_breaks m integrate
                (variant_of m) ceiling tol
                ((workers_upper m - workers_lower m)
                 / inject_Z (number_knots - 1))
                (initial_bracket ceiling)
                (reset_state m (variant_of m) g
                   (mkState (set_integrator (integrator s) name)
                            (solution s) (stdout s)))
                fuel eq_refl Hc) as (_ & Hl).
    rewrite Hl. reflexivity.
Qed.

(** C9 (as the code has it).  The success flag is read by the loop test
    only.  When the loop test finds it false the loop ends at once, with
    the integrator, the solution and the output untouched: no further
    step, row or bracket update.  A step that reports failure is not
    noticed before that test: whenever the three positivity assertions
    pass its row is appended, whatever the flag says. *)
Theorem unsuccessful_flag_ends_loop
    (m : Model) (integrate : Ode.ode -> Q -> Ode.ode) (v : variant)
    (ceiling tol step_size : Q) (b : Bracket) (s : State) (fuel : nat) :
  successful (integrator s) = false ->
  while_successful (body_of m integrate v ceiling tol step_size) (S fuel) b s
  = Normal tt s
  /\ (forall s0 : State,
        let o := integrate (integrator s0)
                           (target_of v step_size (integrator s0)) in
        0 < V1 (Ode.y o) ->
        0 < numeric_wage m (Ode.t o) (Ode.y o) ->
        0 < numeric_profit m (Ode.t o) (Ode.y o) ->
        advance m integrate (target_of v step_size) s0
        = Normal (numeric_wage m (Ode.t o) (Ode.y o),
                  numeric_profit m (Ode.t o) (Ode.y o))
            (mkState o
               (solution s0
                ++ [mkRow (Ode.t o) (V0 (Ode.y o)) (V1 (Ode.y o))
                          (numeric_wage m (Ode.t o) (Ode.y o))
                          (numeric_profit m (Ode.t o) (Ode.y o))])
               (stdout s0))).
Proof.
  intros Hs. split.
  - apply while_unsuccessful. exact Hs.
  - intros s0 o Ht Hw Hp. rewrite advance_eq. cbv zeta. fold o.
    apply Qltb_iff in Ht, Hw, Hp. rewrite Ht, Hw, Hp. reflexivity.
Qed.

(** A solver whose integrator has just reported a failed step. *)
Lemma unsuccessful_flag_ends_loop_witness :
  successful (integrator (state_at (1 # 2) 1 1 false)) = false
  /\ while_successful
       (body_of (toy_model "negative") linear_integrate Negative
                2 (1 # 1000) (1 # 2))
       1 (initial_bracket 2) (state_at (1 # 2) 1 1 false)
     = Normal tt (state_at (1 # 2) 1 1 false).
Proof.
  split; [reflexivity |].
  exact (proj1 (unsuccessful_flag_ends_loop
                  (toy_model "negative") linear_integrate Negative
                  2 (1 # 1000) (1 # 2) (initial_bracket 2)
                  (state_at (1 # 2) 1 1 false) 0 eq_refl)).
Defined.

(** C9 as stated fails.  Under a stepper whose every step reports
    failure, the first pass of a trial with step 1/2 still appends the
    row of the failed step, and the first pass of a trial with step 1
    goes on to classify the failed step, narrows the bracket and resets
    the integrator, after which the loop test passes again. *)
Lemma failed_step_not_abandoned :
  ~ abandons_failed_step (toy_model "negative") failing_integrate Negative
      2 (1 # 1000) (1 # 2) (initial_bracket 2)
      (reset_state (toy_model "negative") Negative
                   (guess_firm_size (initial_bracket 2)) fresh)
  /\ ~ abandons_failed_step (toy_model "negative") failing_integrate Negative
         2 (1 # 1000) 1 (initial_bracket 2)
         (reset_state (toy_model "negative") Negative
                      (guess_firm_size (initial_bracket 2)) fresh)
  /\ solution
       (final_state
          (body_of (toy_model "negative") failing_integrate Negative
             2 (1 # 1000) (1 # 2) (initial_bracket 2)
             (reset_state (toy_model "negative") Negative
                          (guess_firm_size (initial_bracket 2)) fresh)))
     = [reset_row (toy_model "negative") Negative
                  (guess_firm_size (initial_bracket 2));
        mkRow (1 # 2) 1 (guess_firm_size (initial_bracket 2)) 1 1]
  /\ successful
       (integrator
          (final_state
             (body_of (toy_model "negative") failing_integrate Negative
                2 (1 # 1000) 1 (initial_bracket 2)
                (reset_state (toy_model "negative") Negative
                             (guess_firm_size (initial_bracket 2)) fresh))))
     = true.
Proof.
  split; [| split; [| split; vm_compute; reflexivity]].
  - intros H.
    destruct (H eq_refl eq_refl eq_refl
                (Continue (initial_bracket 2))
                (final_state
                   (body_of (toy_model "negative") failing_integrate Negative
                      2 (1 # 1000) (1 # 2) (initial_bracket 2)
                      (reset_state (toy_model "negative") Negative
                         (guess_firm_size (initial_bracket 2)) fresh))))
      as [Hsol _]; [vm_compute; reflexivity |].
    vm_compute in Hsol. discriminate.
  - intros H.
    destruct (H eq_refl eq_refl eq_refl
                (Continue (narrowed_above (initial_bracket 2)))
                (final_state
                   (body_of (toy_model "negative") failing_integrate Negative
                      2 (1 # 1000) 1 (initial_bracket 2)
                      (reset_state (toy_model "negative") Negative
                         (guess_firm_size (initial_bracket 2)) fresh))))
      as [_ Hb]; [vm_compute; reflexivity |].
    vm_compute in Hb. discriminate.
Qed.

(** C10.  [solve] runs the positive assortative driver when the model's
    assortativity is exactly ["positive"], and the negative assortative
    driver for every other value, valid or not. *)
Theorem solve_dispatches_on_positive
    (m : Model) (integrate : Ode.ode -> Q -> Ode.ode) (ceiling tol : Q)
    (number_knots : Z) (name : string) (fuel : nat) (s : State) :
  (assortativity m = "positive"%string ->
   solve m integrate ceiling tol number_knots name fuel s
   = _solve_positive_assortative_matching m integrate ceiling tol
       number_knots name fuel s)
  /\ (assortativity m <> "positive"%string ->
      solve m integrate ceiling tol number_knots name fuel s
      = _solve_negative_assortative_matching m integrate ceiling tol
          number_knots name fuel s).
Proof.
  split; intros H; rewrite solve_eq; unfold variant_of.
  - rewrite H, String.eqb_refl. reflexivity.
  - apply String.eqb_neq in H. rewrite H. reflexivity.
Qed.

(** The three cases on the toy model: ["positive"], ["negative"], and the
    invalid value ["Positive"], which runs the negative driver.  The two
    drivers differ on this input, so the dispatch is observable. *)
Lemma solve_dispatches_on_positive_witness :
  solve (toy_model "positive") linear_integrate 2 (1 # 1000) 3 "dopri5" 4 fresh
  = _solve_positive_assortative_matching (toy_model "positive")
      linear_integrate 2 (1 # 1000) 3 "dopri5" 4 fresh
  /\ solve (toy_model "negative") linear_integrate 2 (1 # 1000) 3 "dopri5" 4
           fresh
     = _solve_negative_assortative_matching (toy_model "negative")
         linear_integrate 2 (1 # 1000) 3 "dopri5" 4 fresh
  /\ solve (toy_model "Positive") linear_integrate 2 (1 # 1000) 3 "dopri5" 4
           fresh
     = _solve_negative_assortative_matching (toy_model "Positive")
         linear_integrate 2 (1 # 1000) 3 "dopri5" 4 fresh
  /\ _solve_negative_assortative_matching (toy_model "Positive")
       linear_integrate 2 (1 # 1000) 3 "dopri5" 4 fresh
     <> _solve_positive_assortative_matching (toy_model "Positive")
          linear_integrate 2 (1 # 1000) 3 "dopri5" 4 fresh.
Proof.
  split; [| split; [| split]].
  - apply (proj1 (solve_dispatches_on_positive (toy_model "positive")
                    linear_integrate 2 (1 # 1000) 3 "dopri5" 4 fresh)).
    reflexivity.
  - apply (proj2 (solve_dispatches_on_positive (toy_model "negative")
                    linear_integrate 2 (1 # 1000) 3 "dopri5" 4 fresh)).
    intros H. discriminate H.
  - apply (proj2 (solve_dispatches_on_positive (toy_model "Positive")
                    linear_integrate 2 (1 # 1000) 3 "dopri5" 4 fresh)).
    intros H. discriminate H.
  - intros H. vm_compute in H. discriminate H.
Defined.

(** * Further properties of the classification *)

Lemma classify_negative_flat (m : Model) (tol wage profit : Q) (b : Bracket)
    (s : State) :
  classify_negative m tol wage profit b s
  = classify_negative_table m tol wage profit b s.
Proof.
  unfold classify_negative, classify_negative_table.
  rewrite !bind_get. cbv zeta.
  destruct (_exhausted_workers m s (workers_upper m) tol);
    destruct (_exhausted_firms s (firms_lower m) tol);
    destruct (_converged_workers s (workers_upper m) tol);
    destruct (_converged_firms s (firms_lower m) tol);
    destruct (_almost_zero_profit profit tol);
    destruct (_almost_zero_wage wage tol);
    reflexivity.
Qed.

(** X1.  The nested [if]/[elif] chain of the negative assortative loop
    body decides exactly as the flat table: workers exhausted, too high;
    firms exhausted, too low; workers converged, success if the firms
    converged or the profit is at most [tol] and too high otherwise;
    firms converged, success if the wage is at most [tol] and too low
    otherwise; else the next step. *)
Theorem classify_negative_decision_table
    (m : Model) (tol wage profit : Q) (b : Bracket) (s : State) :
  classify_negative m tol wage profit b s
  = classify_negative_table m tol wage profit b s.
Proof. apply classify_negative_flat. Qed.

Lemma stdout_after_reset (m : Model) (v : variant) (g : Q) (s : State) :
  stdout (final_state (reset_of m v g s)) = stdout s.
Proof.
  rewrite reset_of_eq. cbv zeta.
  destruct (Qltb 0 (numeric_wage m _ _)); [| reflexivity].
  destruct (Qltb 0 (numeric_profit m _ _)); reflexivity.
Qed.

Lemma stdout_after_too_high (m : Model) (v : variant) (mesg : string)
    (b : Bracket) (s : State) :
  stdout (final_state (too_high (reset_of m v) mesg b s))
  = stdout s ++ [Line mesg (Some (guess_firm_size b))].
Proof.
  unfold too_high, bind, print_format, ret.
  match goal with
  | |- context [reset_of m v ?g ?s1] =>
      pose proof (stdout_after_reset m v g s1) as E;
      destruct (reset_of m v g s1); exact E
  end.
Qed.

Lemma stdout_after_too_low (m : Model) (v : variant) (mesg : string)
    (b : Bracket) (s : State) :
  stdout (final_state (too_low (reset_of m v) mesg b s))
  = stdout s ++ [Line mesg (Some (guess_firm_size b))].
Proof.
  unfold too_low, bind, print_format, ret.
  match goal with
  | |- context [reset_of m v ?g ?s1] =>
      pose proof (stdout_after_reset m v g s1) as E;
      destruct (reset_of m v g s1); exact E
  end.
Qed.

(** What the negative assortative classification prints, whatever way it
    ends: nothing, or one line with one of the seven live messages. *)
Lemma classify_negative_prints (m : Model) (tol wage profit : Q)
    (b : Bracket) (s : State) :
  stdout (final_state (classify_negative m tol wage profit b s)) = stdout s
  \/ exists l,
       stdout (final_state (classify_negative m tol wage profit b s))
       = stdout s ++ [l]
       /\ text l <> exhausted_all_firms_mesg
       /\ text l <> exhausted_all_workers_mesg.
Proof.
  rewrite classify_negative_flat.
  unfold classify_negative_table. rewrite bind_get. cbv zeta.
  change (_reset_negative_assortative_solution m) with (reset_of m Negative).
  split_ifs;
    try (left; reflexivity);
    right;
    try (rewrite stdout_after_too_high);
    try (rewrite stdout_after_too_low);
    eexists; (split; [reflexivity | split; discriminate]).
Qed.

(** X2.  The two final [else] branches of the negative assortative
    classification are dead: whatever the state, and however the
    classification ends, it never prints "Exhausted all firms ..." nor
    "Exhausted all workers ...". *)
Theorem exhausted_all_messages_never_printed
    (m : Model) (tol wage profit : Q) (b : Bracket) (s : State) (l : line) :
  In l (stdout (final_state (classify_negative m tol wage profit b s))) ->
  text l = exhausted_all_firms_mesg \/ text l = exhausted_all_workers_mesg ->
  In l (stdout s).
Proof.
  intros Hin Htext.
  destruct (classify_negative_prints m tol wage profit b s)
    as [E | (l0 & E & Hf & Hw)]; rewrite E in Hin.
  - exact Hin.
  - apply in_app_or in Hin. destruct Hin as [Hin | [<- | []]].
    + exact Hin.
    + destruct Htext; contradiction.
Qed.

(** A state whose output already holds such a line keeps it. *)
Lemma exhausted_all_messages_never_printed_witness :
  In (Line exhausted_all_firms_mesg (Some 1))
     (stdout (final_state
                (classify_negative (toy_model "negative") (1 # 1000) 1 1
                   (initial_bracket 2)
                   (mkState (Ode.mk 1 (1, 1) true "dopri5") []
                            [Line exhausted_all_firms_mesg (Some 1)]))))
  /\ In (Line exhausted_all_firms_mesg (Some 1))
        [Line exhausted_all_firms_mesg (Some 1)].
Proof.
  assert (H : In (Line exhausted_all_firms_mesg (Some 1))
     (stdout (final_state
                (classify_negative (toy_model "negative") (1 # 1000) 1 1
                   (initial_bracket 2)
                   (mkState (Ode.mk 1 (1, 1) true "dopri5") []
                            [Line exhausted_all_firms_mesg (Some 1)])))))
    by (vm_compute; left; reflexivity).
  split; [exact H |].
  exact (exhausted_all_messages_never_printed _ _ _ _ _ _ _ H
           (or_introl eq_refl)).
Defined.

(** X3.  In the positive assortative classification with a non-negative
    tolerance, exhausted firms always mean "too low": the lower bound is
    raised whether or not the workers have converged, and only the
    message differs. *)
Theorem positive_exhausted_firms_too_low
    (m : Model) (tol : Q) (b : Bracket) (s : State) :
  0 <= tol ->
  _exhausted_firms s (firms_lower m) tol = true ->
  classify_positive m tol b s
  = too_low (_reset_positive_assortative_solution m)
      (if _converged_workers s (workers_lower m) tol
       then "Exhausted firms: Initial guess of {} for firm size was too low!"
       else "Exhausted firms: initial guess of {} for firm size is too low.")
      b s.
Proof.
  intros Htol He.
  assert (Hc : _converged_firms s (firms_lower m) tol = false).
  { apply not_true_iff_false. intros Hc.
    apply _converged_firms_iff in Hc. apply _exhausted_firms_iff in He.
    apply Qabs_le_iff in Hc. lra. }
  unfold classify_positive. rewrite bind_get. cbv zeta.
  rewrite He, Hc.
  destruct (_converged_workers s (workers_lower m) tol); reflexivity.
Qed.

Lemma positive_exhausted_firms_too_low_witness :
  0 <= 1 # 1000
  /\ _exhausted_firms (state_at 0 (- (1)) 1 true)
                      (firms_lower (toy_model "positive")) (1 # 1000) = true
  /\ classify_positive (toy_model "positive") (1 # 1000) (initial_bracket 2)
                       (state_at 0 (- (1)) 1 true)
     = too_low (_reset_positive_assortative_solution (toy_model "positive"))
         (if _converged_workers (state_at 0 (- (1)) 1 true)
                                (workers_lower (toy_model "positive"))
                                (1 # 1000)
          then "Exhausted firms: Initial guess of {} for firm size was too low!"
          else "Exhausted firms: initial guess of {} for firm size is too low.")
         (initial_bracket 2) (state_at 0 (- (1)) 1 true).
Proof.
  assert (Htol : 0 <= 1 # 1000) by (vm_compute; discriminate).
  split; [exact Htol |]. split; [reflexivity |].
  exact (positive_exhausted_firms_too_low (toy_model "positive") (1 # 1000)
           (initial_bracket 2) (state_at 0 (- (1)) 1 true) Htol eq_refl).
Defined.

(** ** How a pass breaks *)

Ltac break_leaf m v :=
  match goal with
  | H : too_high _ _ _ _ = Normal Break _ |- _ =>
      apply (too_high_inv m v) in H; destruct H as [H _]; discriminate H
  | H : too_low _ _ _ _ = Normal Break _ |- _ =>
      apply (too_low_inv m v) in H; destruct H as [H _]; discriminate H
  | H : (print ?mesg ;; ret Break) _ = Normal Break _ |- _ =>
      apply print_break_inv in H; destruct H as [_ ->];
      exists mesg; repeat split; auto
  | H : ret (Continue _) _ = Normal Break _ |- _ =>
      discriminate H
  end.

Lemma classify_negative_break (m : Model) (tol wage profit : Q) (b : Bracket)
    (s s' : State) :
  classify_negative m tol wage profit b s = Normal Break s' ->
  exists mesg,
    s' = with_line s (Line mesg None)
    /\ String.prefix "Success!" mesg = true
    /\ (_converged_workers s (workers_upper m) tol = true
        \/ _converged_firms s (firms_lower m) tol = true).
Proof.
  rewrite classify_negative_flat.
  unfold classify_negative_table. rewrite bind_get. cbv zeta.
  change (_reset_negative_assortative_solution m) with (reset_of m Negative).
  destruct (_exhausted_workers m s (workers_upper m) tol); cbv iota;
    [intros H; break_leaf m Negative |].
  destruct (_exhausted_firms s (firms_lower m) tol); cbv iota;
    [intros H; break_leaf m Negative |].
  destruct (_converged_workers s (workers_upper m) tol); cbv iota.
  - destruct (_converged_firms s (firms_lower m) tol); cbv iota;
      [intros H; break_leaf m Negative |].
    destruct (_almost_zero_profit profit tol); cbv iota;
      intros H; break_leaf m Negative.
  - destruct (_converged_firms s (firms_lower m) tol); cbv iota;
      [| intros H; break_leaf m Negative].
    destruct (_almost_zero_wage wage tol); cbv iota;
      intros H; break_leaf m Negative.
Qed.

Lemma classify_positive_break (m : Model) (tol : Q) (b : Bracket)
    (s s' : State) :
  classify_positive m tol b s = Normal Break s' ->
  exists mesg,
    s' = with_line s (Line mesg None)
    /\ String.prefix "Success!" mesg = true
    /\ (_converged_workers s (workers_lower m) tol = true
        /\ _converged_firms s (firms_lower m) tol = true).
Proof.
  unfold classify_positive. rewrite bind_get. cbv zeta.
  change (_reset_positive_assortative_solution m) with (reset_of m Positive).
  destruct (_converged_workers s (workers_lower m) tol);
    destruct (_converged_firms s (firms_lower m) tol);
    destruct (_exhausted_firms s (firms_lower m) tol);
    cbn [andb negb]; cbv iota; intros H; break_leaf m Positive.
Qed.

(** The boundary condition under which each variant may report success. *)
Lemma body_of_break (m : Model) (integrate : Ode.ode -> Q -> Ode.ode)
    (v : variant) (ceiling tol step_size : Q) (b : Bracket) (s s' : State) :
  body_of m integrate v ceiling tol step_size b s = Normal Break s' ->
  (_guess_firm_size_upper_too_low s ceiling tol = true
   /\ s' = with_line s (Line failure_mesg None))
  \/ (exists wp s1 mesg,
        advance m integrate (target_of v step_size) s = Normal wp s1
        /\ s' = with_line s1 (Line mesg None)
        /\ String.prefix "Success!" mesg = true
        /\ match v with
           | Negative =>
               _converged_workers s1 (workers_upper m) tol = true
               \/ _converged_firms s1 (firms_lower m) tol = true
           | Positive =>
               _converged_workers s1 (workers_lower m) tol = true
               /\ _converged_firms s1 (firms_lower m) tol = true
           end).
Proof.
  rewrite body_of_eq.
  destruct (_guess_firm_size_upper_too_low s ceiling tol).
  - intros H. inversion H. left. auto.
  - destruct (advance m integrate _ s) as [wp s1 | |] eqn:E;
      try discriminate.
    intros H. right. exists wp, s1.
    destruct v;
      [apply classify_negative_break in H
      | apply classify_positive_break in H];
      destruct H as (mesg & -> & Hp & Hc); exists mesg; auto.
Qed.

Lemma advance_positive (m : Model) (integrate : Ode.ode -> Q -> Ode.ode)
    (target : Ode.ode -> Q) (s s' : State) (wp : Q * Q) :
  advance m integrate target s = Normal wp s' ->
  0 < V1 (Ode.y (integrator s')) /\ 0 < fst wp /\ 0 < snd wp.
Proof.
  rewrite advance_eq. cbv zeta.
  destruct (Qltb 0 (V1 _)) eqn:Ht; [| discriminate].
  destruct (Qltb 0 (numeric_wage m _ _)) eqn:Hw; [| discriminate].
  destruct (Qltb 0 (numeric_profit m _ _)) eqn:Hp; [| discriminate].
  intros H. inversion H; subst. cbn.
  apply Qltb_iff in Ht, Hw, Hp. auto.
Qed.

(** X4.  When a pass reports success, the solution is the table of the
    trial with one new last row: the row of the integrator's final
    position, with positive firm size, wage and profit, lying within
    tolerance of [workers.upper] or of [firms.lower] under negative
    assortative matching and within tolerance of both [workers.lower] and
    [firms.lower] under positive assortative matching. *)
Theorem success_row_at_boundary
    (m : Model) (integrate : Ode.ode -> Q -> Ode.ode) (v : variant)
    (ceiling tol step_size : Q) (b : Bracket) (s s' : State) :
  body_of m integrate v ceiling tol step_size b s = Normal Break s' ->
  _guess_firm_size_upper_too_low s ceiling tol = false ->
  exists r,
    solution s' = solution s ++ [r]
    /\ row_x r = Ode.t (integrator s')
    /\ row_mu r = mu_of s'
    /\ row_theta r = theta_of s'
    /\ positive_row r
    /\ match v with
       | Negative =>
           Qabs (row_x r - workers_upper m) <= tol
           \/ Qabs (row_mu r - firms_lower m) <= tol
       | Positive =>
           Qabs (row_x r - workers_lower m) <= tol
           /\ Qabs (row_mu r - firms_lower m) <= tol
       end.
Proof.
  intros H Hlow. apply body_of_break in H.
  destruct H as [[E _] | (wp & s1 & mesg & Ha & -> & _ & Hc)];
    [congruence |].
  pose proof (advance_positive _ _ _ _ _ _ Ha) as (Pt & Pw & Pp).
  apply advance_inv in Ha. destruct Ha as (_ & Hsol & _).
  eexists. split; [exact Hsol |].
  cbn. unfold positive_row, mu_of, theta_of. cbn.
  repeat split; try assumption.
  destruct v.
  - destruct Hc as [Hc | Hc];
      [left; apply _converged_workers_iff in Hc
      | right; apply _converged_firms_iff in Hc]; exact Hc.
  - destruct Hc as [Hw Hf].
    apply _converged_workers_iff in Hw. apply _converged_firms_iff in Hf.
    split; assumption.
Qed.

(** The last pass of the converging toy solve: from [x = 1/2] the exact
    linear trajectory reaches [x = 1] with [mu = 0]. *)
Lemma success_row_at_boundary_witness :
  exists r,
    solution
      (final_state
         (body_of (toy_model "negative") linear_integrate Negative
            2 (1 # 1000) (1 # 2) (initial_bracket 2)
            (mkState (Ode.mk (1 # 2) (1 # 2, 1) true "dopri5")
                     [mkRow 0 1 1 1 1; mkRow (1 # 2) (1 # 2) 1 1 1] [])))
    = [mkRow 0 1 1 1 1; mkRow (1 # 2) (1 # 2) 1 1 1] ++ [r]
    /\ positive_row r
    /\ (Qabs (row_x r - 1) <= 1 # 1000 \/ Qabs (row_mu r - 0) <= 1 # 1000).
Proof.
  assert (Hrun :
    body_of (toy_model "negative") linear_integrate Negative
      2 (1 # 1000) (1 # 2) (initial_bracket 2)
      (mkState (Ode.mk (1 # 2) (1 # 2, 1) true "dopri5")
               [mkRow 0 1 1 1 1; mkRow (1 # 2) (1 # 2) 1 1 1] [])
    = Normal Break
        (final_state
           (body_of (toy_model "negative") linear_integrate Negative
              2 (1 # 1000) (1 # 2) (initial_bracket 2)
              (mkState (Ode.mk (1 # 2) (1 # 2, 1) true "dopri5")
                       [mkRow 0 1 1 1 1; mkRow (1 # 2) (1 # 2) 1 1 1] []))))
    by (vm_compute; reflexivity).
  destruct (success_row_at_boundary _ _ _ _ _ _ _ _ _ Hrun eq_refl)
    as (r & Hsol & _ & _ & _ & Hpos & Hb).
  exists r. split; [exact Hsol |]. split; [exact Hpos | exact Hb].
Defined.

(** ** How a solve ends *)

Lemma body_of_break_verdict (m : Model) (integrate : Ode.ode -> Q -> Ode.ode)
    (v : variant) (ceiling tol step_size : Q) (b : Bracket) (s s' : State) :
  body_of m integrate v ceiling tol step_size b s = Normal Break s' ->
  exists rest l, stdout s' = rest ++ [l] /\ is_verdict l.
Proof.
  intros H. apply body_of_break in H.
  destruct H as [[_ ->] | (wp & s1 & mesg & _ & -> & Hp & _)].
  - exists (stdout s), (Line failure_mesg None).
    split; [reflexivity |]. split; [reflexivity | left; reflexivity].
  - exists (stdout s1), (Line mesg None).
    split; [reflexivity |]. split; [reflexivity | right; exact Hp].
Qed.

Lemma while_ends (body : Bracket -> M control) (P : State -> Prop) :
  (forall b s s', body b s = Normal Break s' -> P s') ->
  forall fuel b s u s',
    while_successful body fuel b s = Normal u s' ->
    successful (integrator s') = false \/ P s'.
Proof.
  intros Hbreak. induction fuel as [| fuel IH]; intros b s u s' H.
  - discriminate.
  - cbn in H. destruct (successful (integrator s)) eqn:Hs.
    + destruct (body b s) as [c s1 | |] eqn:E; try discriminate.
      destruct c as [| b1].
      * inversion H; subst. right. eapply Hbreak; eauto.
      * eapply IH; eauto.
    + inversion H; subst. left. exact Hs.
Qed.

Lemma driver_of_ends (m : Model) (integrate : Ode.ode -> Q -> Ode.ode)
    (v : variant) (ceiling tol : Q) (number_knots : Z) (name : string)
    (fuel : nat) (s s' : State) (r : pyobject) (P : State -> Prop) :
  (forall step_size b s0 s1,
      body_of m integrate v ceiling tol step_size b s0 = Normal Break s1 ->
      P s1) ->
  driver_of m integrate v ceiling tol number_knots name fuel s = Normal r s' ->
  successful (integrator s') = false \/ P s'.
Proof.
  intros Hbreak. rewrite driver_of_eq.
  destruct (reset_of m v _ _) as [u s1 | |]; try discriminate.
  destruct (Qeq_bool _ 0); try discriminate.
  destruct (while_successful _ _ _ _) as [u2 s2 | |] eqn:Hw; try discriminate.
  intros H. inversion H; subst.
  eapply while_ends; [| exact Hw]. intros b s0 s3. apply Hbreak.
Qed.

(** X5.  A call to [solve] that completes has ended in one of two ways:
    the loop test found the integrator unsuccessful, or the last line
    printed is the ceiling failure or a "Success!" message. *)
Theorem solve_ends_with_verdict
    (m : Model) (integrate : Ode.ode -> Q -> Ode.ode) (ceiling tol : Q)
    (number_knots : Z) (name : string) (fuel : nat) (s s' : State)
    (r : pyobject) :
  solve m integrate ceiling tol number_knots name fuel s = Normal r s' ->
  successful (integrator s') = false
  \/ exists rest l, stdout s' = rest ++ [l] /\ is_verdict l.
Proof.
  rewrite solve_eq. intros H.
  apply (driver_of_ends m integrate (variant_of m) ceiling tol number_knots
           name fuel s s' r
           (fun s1 => exists rest l, stdout s1 = rest ++ [l] /\ is_verdict l));
    [| exact H].
  intros step_size b s0 s1. apply body_of_break_verdict.
Qed.

Lemma solve_ends_with_verdict_witness :
  solve (toy_model "negative") linear_integrate 2 (1 # 1000) 3 "dopri5" 10
        fresh
  = Normal PyNone
      (final_state
         (solve (toy_model "negative") linear_integrate 2 (1 # 1000) 3
                "dopri5" 10 fresh))
  /\ (successful
        (integrator
           (final_state
              (solve (toy_model "negative") linear_integrate 2 (1 # 1000) 3
                     "dopri5" 10 fresh))) = false
      \/ exists rest l,
           stdout
             (final_state
                (solve (toy_model "negative") linear_integrate 2 (1 # 1000) 3
                       "dopri5" 10 fresh))
           = rest ++ [l] /\ is_verdict l).
Proof.
  assert (Hrun :
    solve (toy_model "negative") linear_integrate 2 (1 # 1000) 3 "dopri5" 10
          fresh
    = Normal PyNone
        (final_state
           (solve (toy_model "negative") linear_integrate 2 (1 # 1000) 3
                  "dopri5" 10 fresh)))
    by (vm_compute; reflexivity).
  split; [exact Hrun |].
  exact (solve_ends_with_verdict _ _ _ _ _ _ _ _ _ _ Hrun).
Defined.

(** ** Negative tolerance *)

Lemma body_of_no_break (m : Model) (integrate : Ode.ode -> Q -> Ode.ode)
    (v : variant) (ceiling tol step_size : Q) (b : Bracket) (s s' : State) :
  tol < 0 ->
  body_of m integrate v ceiling tol step_size b s = Normal Break s' ->
  False.
Proof.
  intros Htol H. apply body_of_break in H.
  assert (Habs : forall x, Qabs x <= tol -> False).
  { intros x Hx. pose proof (Qabs_nonneg x). lra. }
  destruct H as [[E _] | (wp & s1 & mesg & _ & _ & _ & Hc)].
  - apply Qleb_iff in E. exact (Habs _ E).
  - destruct v.
    + destruct Hc as [Hc | Hc];
        [apply _converged_workers_iff in Hc
        | apply _converged_firms_iff in Hc]; exact (Habs _ Hc).
    + destruct Hc as [Hc _]. apply _converged_workers_iff in Hc.
      exact (Habs _ Hc).
Qed.

(** X6.  With a negative tolerance no pass ever breaks: neither a success
    nor the ceiling failure can be reported, so a call to [solve] that
    completes has ended because the integrator reported failure. *)
Theorem negative_tolerance_never_converges
    (m : Model) (integrate : Ode.ode -> Q -> Ode.ode) (ceiling tol : Q)
    (number_knots : Z) (name : string) (fuel : nat) (s s' : State)
    (r : pyobject) :
  tol < 0 ->
  solve m integrate ceiling tol number_knots name fuel s = Normal r s' ->
  successful (integrator s') = false
  /\ forall v step_size b s0 s1,
       body_of m integrate v ceiling tol step_size b s0 <> Normal Break s1.
Proof.
  intros Htol H. split.
  - rewrite solve_eq in H.
    destruct (driver_of_ends m integrate (variant_of m) ceiling tol
                number_knots name fuel s s' r (fun _ => False)) as [E | []].
    + intros step_size b s0 s1 Hb.
      exact (body_of_no_break _ _ _ _ _ _ _ _ _ Htol Hb).
    + exact H.
    + exact E.
  - intros v step_size b s0 s1 Hb.
    exact (body_of_no_break _ _ _ _ _ _ _ _ _ Htol Hb).
Qed.

(** The toy solve under a stepper that fails, with tolerance -1/10. *)
Lemma negative_tolerance_never_converges_witness :
  - (1 # 10) < 0
  /\ solve (toy_model "negative") failing_integrate 2 (- (1 # 10)) 3 "dopri5" 10
           fresh
     = Normal PyNone
         (final_state
            (solve (toy_model "negative") failing_integrate 2 (- (1 # 10)) 3
                   "dopri5" 10 fresh))
  /\ successful
       (integrator
          (final_state
             (solve (toy_model "negative") failing_integrate 2 (- (1 # 10)) 3
                    "dopri5" 10 fresh))) = false.
Proof.
  assert (Htol : - (1 # 10) < 0) by reflexivity.
  assert (Hrun :
    solve (toy_model "negative") failing_integrate 2 (- (1 # 10)) 3 "dopri5" 10
          fresh
    = Normal PyNone
        (final_state
           (solve (toy_model "negative") failing_integrate 2 (- (1 # 10)) 3
                  "dopri5" 10 fresh)))
    by (vm_compute; reflexivity).
  split; [exact Htol |]. split; [exact Hrun |].
  exact (proj1 (negative_tolerance_never_converges _ _ _ _ _ _ _ _ _ _
                  Htol Hrun)).
Defined.

(** * Further properties of the bisection and of the solution table *)

(** ** The rows of the table *)





Lemma too_high_positive (m : Model) (v : variant) (mesg : string)
    (b : Bracket) (s s' : State) (c : control) :
  too_high (reset_of m v) mesg b s = Normal c s' ->
  0 < row_wage (reset_row m v (guess_firm_size (narrowed_above b)))
  /\ 0 < row_profit (reset_row m v (guess_firm_size (narrowed_above b))).
Proof.
  unfold too_high, bind, print_format, ret.
  destruct (reset_of m v _ _) as [u s1 | |] eqn:E; try discriminate.
  intros _. apply reset_of_inv in E. destruct E as (_ & Hw & Hp).
  split; assumption.
Qed.

Lemma too_low_positive (m : Model) (v : variant) (mesg : string)
    (b : Bracket) (s s' : State) (c : control) :
  too_low (reset_of m v) mesg b s = Normal c s' ->
  0 < row_wage (reset_row m v (guess_firm_size (narrowed_below b)))
  /\ 0 < row_profit (reset_row m v (guess_firm_size (narrowed_below b))).
Proof.
  unfold too_low, bind, print_format, ret.
  destruct (reset_of m v _ _) as [u s1 | |] eqn:E; try discriminate.
  intros _. apply reset_of_inv in E. destruct E as (_ & Hw & Hp).
  split; assumption.
Qed.

Ltac rows_leaf m v :=
  match goal with
  | H : too_high _ _ _ _ = Normal _ _ |- _ =>
      pose proof (too_high_positive m v _ _ _ _ _ H);
      apply (too_high_inv m v) in H; destruct H as [-> ->];
      right; split; [reflexivity | assumption]
  | H : too_low _ _ _ _ = Normal _ _ |- _ =>
      pose proof (too_low_positive m v _ _ _ _ _ H);
      apply (too_low_inv m v) in H; destruct H as [-> ->];
      right; split; [reflexivity | assumption]
  | H : (print _ ;; ret Break) _ = Normal _ _ |- _ =>
      apply print_break_inv in H; destruct H as [-> ->];
      left; reflexivity
  | H : ret (Continue _) _ = Normal _ _ |- _ =>
      unfold ret in H; inversion H; subst; left; reflexivity
  end.

(** A classification that completes keeps the rows, or replaces them by
    the reset row of the new guess, whose wage and profit are positive. *)
Lemma classify_rows (m : Model) (v : variant) (tol wage profit : Q)
    (b : Bracket) (s s' : State) (c : control) :
  match v with
  | Negative => classify_negative m tol wage profit b s
  | Positive => classify_positive m tol b s
  end = Normal c s' ->
  solution s' = solution s
  \/ (solution s' = [reset_row m v (guess_firm_size (bracket_after b c))]
      /\ 0 < row_wage (reset_row m v (guess_firm_size (bracket_after b c)))
      /\ 0 < row_profit
               (reset_row m v (guess_firm_size (bracket_after b c)))).
Proof.
  destruct v.
  - unfold classify_negative. rewrite bind_get. cbv zeta.
    change (_reset_negative_assortative_solution m)
      with (reset_of m Negative).
    split_ifs; intros H; rows_leaf m Negative.
  - unfold classify_positive. rewrite bind_get. cbv zeta.
    change (_reset_positive_assortative_solution m)
      with (reset_of m Positive).
    split_ifs; intros H; rows_leaf m Positive.
Qed.

(** ** What a solve owes to the state it starts from *)

(** X11.  When the first reset passes its assertions, a solve does not
    depend on the integrator position or the solution an earlier solve
    left behind: from two states with the same output it ends the same
    way in the same state. *)
Theorem solve_forgets_earlier_solve
    (m : Model) (integrate : Ode.ode -> Q -> Ode.ode) (ceiling tol : Q)
    (number_knots : Z) (name : string) (fuel : nat) (s1 s2 : State) :
  0 < numeric_wage m (start_of m (variant_of m))
        (firms_upper m, guess_firm_size (initial_bracket ceiling)) ->
  0 < numeric_profit m (start_of m (variant_of m))
        (firms_upper m, guess_firm_size (initial_bracket ceiling)) ->
  stdout s1 = stdout s2 ->
  solve m integrate ceiling tol number_knots name fuel s1
  = solve m integrate ceiling tol number_knots name fuel s2.
Proof.
  intros Hw Hp Hout.
  rewrite !solve_eq, !driver_of_eq.
  rewrite !(reset_of_normal m (variant_of m) _ _ Hw Hp).
  unfold reset_state. cbn [stdout integrator set_integrator Ode.method].
  rewrite Hout. reflexivity.
Qed.

(** A fresh solver and one left mid-trajectory by an earlier solve. *)
Lemma solve_forgets_earlier_solve_witness :
  solve (toy_model "negative") linear_integrate 2 (1 # 1000) 3 "dopri5" 10
        fresh
  = solve (toy_model "negative") linear_integrate 2 (1 # 1000) 3 "dopri5" 10
          (mkState (Ode.mk (1 # 3) (7, 9) false "vode")
                   [mkRow 5 5 5 5 5; mkRow 6 6 6 6 6] []).
Proof.
  exact (solve_forgets_earlier_solve (toy_model "negative") linear_integrate
           2 (1 # 1000) 3 "dopri5" 10 fresh
           (mkState (Ode.mk (1 # 3) (7, 9) false "vode")
                    [mkRow 5 5 5 5 5; mkRow 6 6 6 6 6] [])
           eq_refl eq_refl eq_refl).
Defined.

(** X12.  When the wage or the profit at the first guess is not positive,
    [solve] raises an assertion error before the loop: the integrator has
    already been given the new stepper and the initial condition, but the
    solution of an earlier solve is still in place and nothing has been
    printed. *)
Theorem solve_fails_at_first_reset
    (m : Model) (integrate : Ode.ode -> Q -> Ode.ode) (ceiling tol : Q)
    (number_knots : Z) (name : string) (fuel : nat) (s : State) :
  numeric_wage m (start_of m (variant_of m))
    (firms_upper m, guess_firm_size (initial_bracket ceiling)) <= 0
  \/ numeric_profit m (start_of m (variant_of m))
       (firms_upper m, guess_firm_size (initial_bracket ceiling)) <= 0 ->
  exists mesg,
    solve m integrate ceiling tol number_knots name fuel s
    = Raised (AssertionError mesg)
        (mkState
           (Ode.mk (start_of m (variant_of m))
                   (firms_upper m, guess_firm_size (initial_bracket ceiling))
                   true name)
           (solution s) (stdout s)).
Proof.
  intros H. rewrite solve_eq, driver_of_eq, reset_of_eq. cbv zeta.
  destruct (Qltb 0 (numeric_wage m _ _)) eqn:Hw.
  - destruct (Qltb 0 (numeric_profit m _ _)) eqn:Hp.
    + exfalso. apply Qltb_iff in Hw, Hp. unfold initial_V in Hw, Hp.
      destruct H; lra.
    + eexists. reflexivity.
  - eexists. reflexivity.
Qed.

(** The model whose wage is zero, solved after an earlier solve left two
    rows behind. *)
Lemma solve_fails_at_first_reset_witness :
  exists mesg,
    solve unpaid_model linear_integrate 2 (1 # 1000) 3 "dopri5" 10
          (mkState (Ode.mk (1 # 3) (7, 9) false "vode")
                   [mkRow 5 5 5 5 5; mkRow 6 6 6 6 6] [])
    = Raised (AssertionError mesg)
        (mkState
           (Ode.mk 0 (1, guess_firm_size (initial_bracket 2)) true "dopri5")
           [mkRow 5 5 5 5 5; mkRow 6 6 6 6 6] []).
Proof.
  refine (solve_fails_at_first_reset unpaid_model linear_integrate
            2 (1 # 1000) 3 "dopri5" 10
            (mkState (Ode.mk (1 # 3) (7, 9) false "vode")
                     [mkRow 5 5 5 5 5; mkRow 6 6 6 6 6] []) _).
  left. vm_compute. discriminate.
Defined.

(** * The solver object and its caches *)

Lemma in_use_coherent (lambdify_system : Model -> Q -> Vec -> Vec)
    (lambdify_jacobian : Model -> Q -> Vec -> Mat) (new_ode : Ode.ode)
    (self : ShootingSolver) :
  in_use lambdify_system lambdify_jacobian new_ode self ->
  coherent lambdify_system lambdify_jacobian self.
Proof.
  intros H. induction H as
    [model self E
    | model self self' _ IH E
    | model mesg class_name self self' _ IH E
    | self _ IH | self _ IH | self _ IH | self _ IH | self _ IH].
  - unfold __init__ in E. destruct (_validate_model model); inversion E.
    repeat split; cbn; intros f Hf; discriminate Hf.
  - unfold set_model in E. destruct (_validate_model model); inversion E.
    repeat split; cbn; intros f Hf; discriminate Hf.
  - unfold set_model in E. destruct (_validate_model model); inversion E.
    subst. exact IH.
  - unfold _numeric_jacobian.
    destruct (__numeric_jacobian self); cbn [snd]; [exact IH |].
    destruct IH as (Hj & Hp & Hs & Hw).
    repeat split; cbn; auto; intros f Hf; inversion Hf; reflexivity.
  - unfold _numeric_profit.
    destruct (__numeric_profit self); cbn [snd]; [exact IH |].
    destruct IH as (Hj & Hp & Hs & Hw).
    repeat split; cbn; auto; intros f Hf; inversion Hf; reflexivity.
  - unfold _numeric_system.
    destruct (__numeric_system self); cbn [snd]; [exact IH |].
    destruct IH as (Hj & Hp & Hs & Hw).
    repeat split; cbn; auto; intros f Hf; inversion Hf; reflexivity.
  - unfold _numeric_wage.
    destruct (__numeric_wage self); cbn [snd]; [exact IH |].
    destruct IH as (Hj & Hp & Hs & Hw).
    repeat split; cbn; auto; intros f Hf; inversion Hf; reflexivity.
  - unfold get_integrator.
    destruct (__integrator self); cbn [snd]; [exact IH |].
    destruct IH as (Hj & Hp & Hs & Hw).
    repeat split; cbn; auto.
Qed.

(** X13.  A solver object never serves a stale evaluator: however it has
    been used since its construction (models assigned, successfully or
    not, getters called in any order), each cached getter returns the
    function lambdified from the model the solver holds now, and the wage
    and profit methods evaluate and assert as the evaluators of that
    model do. *)
Theorem cached_evaluators_follow_model
    (lambdify_system : Model -> Q -> Vec -> Vec)
    (lambdify_jacobian : Model -> Q -> Vec -> Mat) (new_ode : Ode.ode)
    (self : ShootingSolver) (x : Q) (V : Vec) (s : State) :
  in_use lambdify_system lambdify_jacobian new_ode self ->
  fst (_numeric_jacobian lambdify_jacobian self)
  = lambdify_jacobian (get_model self)
  /\ fst (_numeric_profit self) = numeric_profit (get_model self)
  /\ fst (_numeric_system lambdify_system self)
     = lambdify_system (get_model self)
  /\ fst (_numeric_wage self) = numeric_wage (get_model self)
  /\ fst (evaluate_jacobian lambdify_jacobian x V self)
     = lambdify_jacobian (get_model self) x V
  /\ fst (evaluate_rhs lambdify_system x V self)
     = lambdify_system (get_model self) x V
  /\ Some (fst (method_evaluate_wage x V self))
     = result_of (evaluate_wage (get_model self) x V s)
  /\ Some (fst (method_evaluate_profit x V self))
     = result_of (evaluate_profit (get_model self) x V s).
Proof.
  intros H. apply in_use_coherent in H. destruct H as (Hj & Hp & Hs & Hw).
  unfold get_model.
  assert (Ej : fst (_numeric_jacobian lambdify_jacobian self)
               = lambdify_jacobian (_model self)).
  { unfold _numeric_jacobian.
    destruct (__numeric_jacobian self) as [f |] eqn:E; cbn; auto. }
  assert (Ep : fst (_numeric_profit self) = numeric_profit (_model self)).
  { unfold _numeric_profit.
    destruct (__numeric_profit self) as [f |] eqn:E; cbn; auto. }
  assert (Es : fst (_numeric_system lambdify_system self)
               = lambdify_system (_model self)).
  { unfold _numeric_system.
    destruct (__numeric_system self) as [f |] eqn:E; cbn; auto. }
  assert (Ew : fst (_numeric_wage self) = numeric_wage (_model self)).
  { unfold _numeric_wage.
    destruct (__numeric_wage self) as [f |] eqn:E; cbn; auto. }
  repeat split; try assumption.
  - unfold evaluate_jacobian.
    destruct (_numeric_jacobian lambdify_jacobian self) as [f self'].
    cbn in *. rewrite Ej. reflexivity.
  - unfold evaluate_rhs.
    destruct (_numeric_system lambdify_system self) as [f self'].
    cbn in *. rewrite Es. reflexivity.
  - unfold method_evaluate_wage, evaluate_wage, bind, assert, ret, raise.
    destruct (_numeric_wage self) as [f self']. cbn in Ew. subst f.
    destruct (Qltb 0 (numeric_wage (_model self) x V)); reflexivity.
  - unfold method_evaluate_profit, evaluate_profit, bind, assert, ret, raise.
    destruct (_numeric_profit self) as [f self']. cbn in Ep. subst f.
    destruct (Qltb 0 (numeric_profit (_model self) x V)); reflexivity.
Qed.

(** A solver built for the toy model, whose wage getter was called and
    which was then given the model with zero wage. *)
Lemma cached_evaluators_follow_model_witness :
  fst (_numeric_wage
         (_clear_cache
            (mkSolver unpaid_model None None None
                      (Some (numeric_wage (toy_model "negative"))) None)))
  = numeric_wage unpaid_model.
Proof.
  refine (proj1 (proj2 (proj2 (proj2
            (cached_evaluators_follow_model
               (fun _ _ V => V) (fun _ _ V => (V, V)) (Ode.mk 0 (0, 0) true "")
               (_clear_cache
                  (mkSolver unpaid_model None None None
                     (Some (numeric_wage (toy_model "negative"))) None))
               0 (0, 0) fresh _))))).
  eapply use_set_model with (model := ModelInstance unpaid_model).
  - eapply use_numeric_wage.
    eapply use_init with (model := ModelInstance (toy_model "negative")).
    reflexivity.
  - reflexivity.
Defined.

(** Assigning anything but a [models.Model] to the [model]
    attribute raises [AttributeError] naming the offending class and
    leaves the solver as it was, model and caches included; a model is
    accepted whatever the caches hold, and all five caches are then
    empty.  The constructor refuses and accepts in the same way. *)
Lemma model_setter_validates (model : pyarg) (self : ShootingSolver) :
  match model with
  | OtherInstance class_name =>
      set_model model self
      = AttributeError _validate_model_mesg class_name self
      /\ __init__ model = inr class_name
  | ModelInstance m =>
      set_model model self = Done tt (mkSolver m None None None None None)
      /\ __init__ model = inl (mkSolver m None None None None None)
  end.
Proof. destruct model; split; reflexivity. Qed.

(** * The size of the table *)
(** * The bracket and the evaluators over machine arithmetic *)

Lemma machine_too_high_bracket (A : Arith)
    (reset : num A -> Machine.M A unit) (mesg : string)
    (b : Machine.Bracket A) (s s' : Machine.State A) (c : Machine.control A) :
  Machine.too_high A reset mesg b s = Machine.Normal c s' ->
  c = Machine.Continue
        (Machine.mkBracket A (Machine.firm_size_lower b)
           (Machine.guess_firm_size b)
           (mul A (half A)
                (add A (Machine.guess_firm_size b)
                       (Machine.firm_size_lower b)))).
Proof.
  unfold Machine.too_high, Machine.bind, Machine.print_format, Machine.ret.
  destruct (reset _ _); [| discriminate].
  intros H. inversion H. reflexivity.
Qed.

Lemma machine_too_low_bracket (A : Arith)
    (reset : num A -> Machine.M A unit) (mesg : string)
    (b : Machine.Bracket A) (s s' : Machine.State A) (c : Machine.control A) :
  Machine.too_low A reset mesg b s = Machine.Normal c s' ->
  c = Machine.Continue
        (Machine.mkBracket A (Machine.guess_firm_size b)
           (Machine.firm_size_upper b)
           (mul A (half A)
                (add A (Machine.firm_size_upper b)
                       (Machine.guess_firm_size b)))).
Proof.
  unfold Machine.too_low, Machine.bind, Machine.print_format, Machine.ret.
  destruct (reset _ _); [| discriminate].
  intros H. inversion H. reflexivity.
Qed.

Ltac machine_leaf :=
  match goal with
  | H : Machine.too_high _ _ _ _ _ = Machine.Normal _ _ |- _ =>
      apply machine_too_high_bracket in H; inversion H; subst;
      right; split; [left; split; reflexivity | reflexivity]
  | H : Machine.too_low _ _ _ _ _ = Machine.Normal _ _ |- _ =>
      apply machine_too_low_bracket in H; inversion H; subst;
      right; split; [right; split; reflexivity | reflexivity]
  | H : Machine.bind _ (Machine.print _ _) _ _ = Machine.Normal _ _ |- _ =>
      unfold Machine.bind, Machine.print, Machine.ret in H; discriminate H
  | H : Machine.ret _ _ _ = Machine.Normal _ _ |- _ =>
      unfold Machine.ret in H; inversion H; subst; left; reflexivity
  end.

Lemma machine_classify_negative_bracket (A : Arith) (m : Machine.Model A)
    (tol wage profit : num A) (b b' : Machine.Bracket A)
    (s s' : Machine.State A) :
  Machine.classify_negative A m tol wage profit b s
  = Machine.Normal (Machine.Continue b') s' ->
  b' = b \/ one_bound_replaced b b'.
Proof.
  unfold Machine.classify_negative.
  unfold Machine.bind at 1. unfold Machine.get at 1. cbv zeta.
  split_ifs; intros H; machine_leaf.
Qed.

Lemma machine_classify_positive_bracket (A : Arith) (m : Machine.Model A)
    (tol : num A) (b b' : Machine.Bracket A) (s s' : Machine.State A) :
  Machine.classify_positive A m tol b s
  = Machine.Normal (Machine.Continue b') s' ->
  b' = b \/ one_bound_replaced b b'.
Proof.
  unfold Machine.classify_positive.
  unfold Machine.bind at 1. unfold Machine.get at 1. cbv zeta.
  split_ifs; intros H; machine_leaf.
Qed.

(** C4 (as the code has it).  Whatever the arithmetic, and so on
    binary64: a pass through the loop body of either driver that reaches
    the next loop test either leaves the bracket alone or replaces
    exactly one bound by the old guess, keeps the other, and sets the new
    guess to [0.5 * (firm_size_upper + firm_size_lower)] computed from
    the new bounds. *)
Theorem narrowing_replaces_one_bound
    (A : Arith) (m : Machine.Model A)
    (integrate : Machine.ode A -> num A -> Machine.ode A) (v : variant)
    (ceiling tol step_size : num A) (b b' : Machine.Bracket A)
    (s s' : Machine.State A) :
  Machine.body_of A m integrate v ceiling tol step_size b s
  = Machine.Normal (Machine.Continue b') s' ->
  b' = b
  \/ (((Machine.firm_size_upper b' = Machine.guess_firm_size b
        /\ Machine.firm_size_lower b' = Machine.firm_size_lower b)
       \/ (Machine.firm_size_lower b' = Machine.guess_firm_size b
           /\ Machine.firm_size_upper b' = Machine.firm_size_upper b))
      /\ Machine.guess_firm_size b'
         = mul A (half A)
               (add A (Machine.firm_size_upper b')
                      (Machine.firm_size_lower b'))).
Proof.
  destruct v; cbn [Machine.body_of];
    unfold Machine.negative_body, Machine.positive_body;
    unfold Machine.bind at 1;
    unfold Machine.ceiling_reached, Machine.bind at 1, Machine.get at 1;
    destruct (Machine._guess_firm_size_upper_too_low A s ceiling tol);
    try (unfold Machine.bind, Machine.print, Machine.ret; discriminate);
    unfold Machine.ret at 1; unfold Machine.bind at 1;
    destruct (Machine.advance A m integrate _ s) as [wp s1 |];
    try discriminate; intros H.
  - exact (machine_classify_negative_bracket A m tol _ _ b b' s1 s' H).
  - exact (machine_classify_positive_bracket A m tol b b' s1 s' H).
Qed.

(** The first pass of the binary64 solve of the toy model with the
    ceiling 0.1: the guess 0.05 runs out of firms and the lower bound is
    raised to it. *)
Lemma narrowing_replaces_one_bound_witness :
  Machine.firm_size_lower
    (Machine.mkBracket binary64 0x1.999999999999ap-5%float one_tenth
       (0.5 * (one_tenth + 0x1.999999999999ap-5))%float)
  = Machine.guess_firm_size (Machine.initial_bracket binary64 one_tenth)
  /\ Machine.firm_size_upper
       (Machine.mkBracket binary64 0x1.999999999999ap-5%float one_tenth
          (0.5 * (one_tenth + 0x1.999999999999ap-5))%float)
     = Machine.firm_size_upper (Machine.initial_bracket binary64 one_tenth).
Proof.
  assert (Hrun :
    Machine.body_of binary64 float_toy_model float_toy_integrate Negative
      one_tenth 0%float 0.5%float (Machine.initial_bracket binary64 one_tenth)
      (Machine.reset_state binary64 float_toy_model Negative
         (Machine.guess_firm_size (Machine.initial_bracket binary64 one_tenth))
         "dopri5")
    = Machine.Normal
        (Machine.Continue
           (Machine.mkBracket binary64 0x1.999999999999ap-5%float one_tenth
              (0.5 * (one_tenth + 0x1.999999999999ap-5))%float))
        (Machine.final_state binary64
           (Machine.body_of binary64 float_toy_model float_toy_integrate
              Negative one_tenth 0%float 0.5%float
              (Machine.initial_bracket binary64 one_tenth)
              (Machine.reset_state binary64 float_toy_model Negative
                 (Machine.guess_firm_size
                    (Machine.initial_bracket binary64 one_tenth))
                 "dopri5"))))
    by (vm_compute; reflexivity).
  destruct (narrowing_replaces_one_bound _ _ _ _ _ _ _ _ _ _ _ Hrun)
    as [E | [[[E _] | E] _]].
  - vm_compute in E. discriminate E.
  - vm_compute in E. discriminate E.
  - exact E.
Defined.

(** C4 as stated fails on binary64, the arithmetic of the program.  In
    the solve of the toy model with the ceiling 0.1 the second narrowing
    takes the bracket [0.05, 0.1] to [0.05, 0.075000000000000011], whose
    width is not half of the width before, neither as computed nor as a
    real number.  In the solve with the ceiling 0.0625 the 53rd narrowing
    leaves the guess equal to the upper bound, so
    [guess < firm_size_upper] does not hold. *)
Lemma narrowing_not_exact_on_binary64 :
  ~ (forall b1 b2 : Machine.Bracket binary64,
       float_bracket_after one_tenth 1 = Some b1 ->
       float_bracket_after one_tenth 2 = Some b2 ->
       exact_value (Machine.firm_size_upper b2)
       - exact_value (Machine.firm_size_lower b2)
       == (1 # 2) * (exact_value (Machine.firm_size_upper b1)
                     - exact_value (Machine.firm_size_lower b1)))
  /\ ~ (forall b1 b2 : Machine.Bracket binary64,
          float_bracket_after one_tenth 1 = Some b1 ->
          float_bracket_after one_tenth 2 = Some b2 ->
          PrimFloat.eqb
            (Machine.firm_size_upper b2 - Machine.firm_size_lower b2)
            (0.5 * (Machine.firm_size_upper b1 - Machine.firm_size_lower b1))
          = true)
  /\ ~ (forall b : Machine.Bracket binary64,
          float_bracket_after 0.0625%float 53 = Some b ->
          PrimFloat.ltb (Machine.guess_firm_size b) (Machine.firm_size_upper b)
          = true).
Proof.
  split; [| split]; intros H.
  - specialize (H (Machine.mkBracket binary64 0x1.999999999999ap-5%float
                     one_tenth
                     (0.5 * (one_tenth + 0x1.999999999999ap-5))%float)
                  (Machine.mkBracket binary64 0x1.999999999999ap-5%float
                     (0.5 * (one_tenth + 0x1.999999999999ap-5))%float
                     0.0625%float)).
    assert (E1 : float_bracket_after one_tenth 1
                 = Some (Machine.mkBracket binary64 0x1.999999999999ap-5%float
                           one_tenth
                           (0.5 * (one_tenth + 0x1.999999999999ap-5))%float))
      by (vm_compute; reflexivity).
    assert (E2 : float_bracket_after one_tenth 2
                 = Some (Machine.mkBracket binary64 0x1.999999999999ap-5%float
                           (0.5 * (one_tenth + 0x1.999999999999ap-5))%float
                           0.0625%float))
      by (vm_compute; reflexivity).
    specialize (H E1 E2). vm_compute in H. discriminate H.
  - specialize (H (Machine.mkBracket binary64 0x1.999999999999ap-5%float
                     one_tenth
                     (0.5 * (one_tenth + 0x1.999999999999ap-5))%float)
                  (Machine.mkBracket binary64 0x1.999999999999ap-5%float
                     (0.5 * (one_tenth + 0x1.999999999999ap-5))%float
                     0.0625%float)).
    assert (E1 : float_bracket_after one_tenth 1
                 = Some (Machine.mkBracket binary64 0x1.999999999999ap-5%float
                           one_tenth
                           (0.5 * (one_tenth + 0x1.999999999999ap-5))%float))
      by (vm_compute; reflexivity).
    assert (E2 : float_bracket_after one_tenth 2
                 = Some (Machine.mkBracket binary64 0x1.999999999999ap-5%float
                           (0.5 * (one_tenth + 0x1.999999999999ap-5))%float
                           0.0625%float))
      by (vm_compute; reflexivity).
    specialize (H E1 E2). vm_compute in H. discriminate H.
  - assert (E : float_bracket_after 0.0625%float 53
                = Some (Machine.mkBracket binary64
                          0x1.fffffffffffffp-5%float 0.0625%float
                          0.0625%float))
      by (vm_compute; reflexivity).
    specialize (H _ E). vm_compute in H. discriminate H.
Qed.

(** On binary64 "not greater than zero" is "at most zero, or not a
    number". *)
Lemma float_not_positive (w : float) :
  PrimFloat.ltb 0 w = false
  <-> (PrimFloat.leb w 0 = true \/ PrimFloat.is_nan w = true).
Proof.
  unfold PrimFloat.is_nan.
  rewrite ltb_spec, leb_spec, FloatAxioms.eqb_spec.
  change (Prim2SF 0) with (S754_zero false).
  destruct (Prim2SF w) as [sign | sign | | sign mantissa exponent];
    try destruct sign; cbn.
  all: unfold SFeqb; cbn; rewrite ?Z.compare_refl, ?Pos.compare_cont_refl;
    cbn.
  all: try (split; [intros _; left; reflexivity | reflexivity]).
  all: try (split; [intros _; right; reflexivity | reflexivity]).
  all: split; [discriminate | intros [H | H]; discriminate H].
Qed.

(** C8 (as the code has it).  On binary64 [evaluate_wage] raises its
    assertion error exactly when the computed wage is not greater than
    zero, that is when it is at most zero or not a number, and returns
    the wage exactly when it is greater than zero; one of the two always
    happens and the solver is left untouched.  [evaluate_profit] does the
    same for the profit. *)
Theorem evaluators_assert_positive_binary64
    (m : Machine.Model binary64) (x : float) (V : Machine.Vec binary64)
    (s : Machine.State binary64) :
  (Machine.evaluate_wage binary64 m x V s
   = Machine.Raised (AssertionError "Wage should be non-negative!") s
   <-> (PrimFloat.leb (Machine.numeric_wage binary64 m x V) 0 = true
        \/ PrimFloat.is_nan (Machine.numeric_wage binary64 m x V) = true))
  /\ (Machine.evaluate_wage binary64 m x V s
      = Machine.Normal (Machine.numeric_wage binary64 m x V) s
      <-> PrimFloat.ltb 0 (Machine.numeric_wage binary64 m x V) = true)
  /\ (Machine.evaluate_wage binary64 m x V s
      = Machine.Raised (AssertionError "Wage should be non-negative!") s
      \/ Machine.evaluate_wage binary64 m x V s
         = Machine.Normal (Machine.numeric_wage binary64 m x V) s)
  /\ (Machine.evaluate_profit binary64 m x V s
      = Machine.Raised (AssertionError "Profit should be non-negative!") s
      <-> (PrimFloat.leb (Machine.numeric_profit binary64 m x V) 0 = true
           \/ PrimFloat.is_nan (Machine.numeric_profit binary64 m x V)
              = true))
  /\ (Machine.evaluate_profit binary64 m x V s
      = Machine.Normal (Machine.numeric_profit binary64 m x V) s
      <-> PrimFloat.ltb 0 (Machine.numeric_profit binary64 m x V) = true)
  /\ (Machine.evaluate_profit binary64 m x V s
      = Machine.Raised (AssertionError "Profit should be non-negative!") s
      \/ Machine.evaluate_profit binary64 m x V s
         = Machine.Normal (Machine.numeric_profit binary64 m x V) s).
Proof.
  unfold Machine.evaluate_wage, Machine.evaluate_profit, Machine.bind,
         Machine.assert, Machine.ret, Machine.raise.
  cbn [less zero binary64].
  pose proof (float_not_positive (Machine.numeric_wage binary64 m x V)) as Hw.
  pose proof (float_not_positive (Machine.numeric_profit binary64 m x V))
    as Hp.
  destruct (PrimFloat.ltb 0 (Machine.numeric_wage binary64 m x V));
    destruct (PrimFloat.ltb 0 (Machine.numeric_profit binary64 m x V));
    repeat split;
    try (intros; reflexivity);
    try (intros; discriminate);
    try (right; reflexivity);
    try (left; reflexivity);
    try (intros _; apply Hw; reflexivity);
    try (intros _; apply Hp; reflexivity);
    try (intros H; apply Hw in H; discriminate H);
    try (intros H; apply Hp in H; discriminate H).
Qed.

(** C8 as stated fails on binary64: a wage that is not a number makes
    [assert wage > 0.0] raise although [wage <= 0] is false. *)
Lemma nan_wage_raises :
  ~ (Machine.evaluate_wage binary64 float_nan_model 0%float
       (0%float, 0%float)
       (Machine.reset_state binary64 float_toy_model Negative 1%float "dopri5")
     = Machine.Raised (AssertionError "Wage should be non-negative!")
         (Machine.reset_state binary64 float_toy_model Negative 1%float
            "dopri5")
     <-> PrimFloat.leb
           (Machine.numeric_wage binary64 float_nan_model 0%float
              (0%float, 0%float)) 0
         = true).
Proof.
  intros [H _]. specialize (H eq_refl). vm_compute in H. discriminate H.
Qed.

(** * Positive rows *)

Lemma body_of_rows_paid (m : Model) (integrate : Ode.ode -> Q -> Ode.ode)
    (v : variant) (ceiling tol step_size : Q) (b : Bracket)
    (s s' : State) (c : control) :
  (exists r0 rest,
      solution s = r0 :: rest /\ paid_row r0 /\ Forall positive_row rest) ->
  body_of m integrate v ceiling tol step_size b s = Normal c s' ->
  exists r0 rest,
    solution s' = r0 :: rest /\ paid_row r0 /\ Forall positive_row rest.
Proof.
  intros (r0 & rest & Hsol0 & Hr0 & Hrest) H. rewrite body_of_eq in H.
  destruct (_guess_firm_size_upper_too_low s ceiling tol).
  - inversion H; subst. exists r0, rest. auto.
  - destruct (advance m integrate _ s) as [wp s1 | |] eqn:Ha;
      try discriminate.
    pose proof (advance_positive _ _ _ _ _ _ Ha) as (Pt & Pw & Pp).
    apply advance_inv in Ha. destruct Ha as (_ & Hsol & _).
    rewrite Hsol0 in Hsol. cbn [app] in Hsol.
    apply (classify_rows m v tol (fst wp) (snd wp) b s1 s' c) in H.
    destruct H as [-> | (-> & Hw & Hp)].
    + eexists. eexists. split; [exact Hsol |]. split; [exact Hr0 |].
      apply Forall_app. split; [exact Hrest |].
      constructor; [| constructor]. repeat split; assumption.
    + eexists. eexists. split; [reflexivity |].
      split; [split; assumption | constructor].
Qed.

(** X10.  In a solve whose first reset passes its wage and profit
    assertions, at every loop test every row of the table has a positive
    wage and profit, and every row after row 0 also has a positive firm
    size.  (Row 0 holds the guess, which no assertion tests.) *)
Theorem rows_positive
    (m : Model) (integrate : Ode.ode -> Q -> Ode.ode) (v : variant)
    (ceiling tol step_size : Q) (b : Bracket) (s : State) :
  0 < numeric_wage m (start_of m v)
        (firms_upper m, guess_firm_size (initial_bracket ceiling)) ->
  0 < numeric_profit m (start_of m v)
        (firms_upper m, guess_firm_size (initial_bracket ceiling)) ->
  loop_state m integrate v ceiling tol step_size b s ->
  exists r0 rest,
    solution s = r0 :: rest
    /\ 0 < row_wage r0 /\ 0 < row_profit r0
    /\ Forall positive_row rest.
Proof.
  intros Hw Hp H.
  enough (K : exists r0 rest,
             solution s = r0 :: rest /\ paid_row r0
             /\ Forall positive_row rest).
  { destruct K as (r0 & rest & E & [K1 K2] & K3). exists r0, rest. auto. }
  induction H as [s0 | b b' s s' _ IH _ Hb].
  - eexists. eexists. split; [reflexivity |].
    split; [split; assumption | constructor].
  - exact (body_of_rows_paid _ _ _ _ _ _ _ _ _ _ IH Hb).
Qed.

(** The toy solve one step into its first trial. *)
Lemma rows_positive_witness :
  exists r0 rest,
    solution
      (final_state
         (body_of (toy_model "negative") constant_integrate Negative
            2 (1 # 1000) (1 # 2) (initial_bracket 2)
            (reset_state (toy_model "negative") Negative
               (guess_firm_size (initial_bracket 2)) fresh)))
    = r0 :: rest
    /\ 0 < row_wage r0 /\ 0 < row_profit r0
    /\ Forall positive_row rest.
Proof.
  refine (rows_positive (toy_model "negative") constant_integrate Negative
            2 (1 # 1000) (1 # 2) (initial_bracket 2) _
            eq_refl eq_refl _).
  eapply loop_next.
  - apply (loop_enter _ _ _ _ _ _ fresh).
  - reflexivity.
  - vm_compute. reflexivity.
Defined.
